(** * csv2aba: the ABA record encoder of [tools/csv2aba/scripts.js]

    A shallow embedding of the converter from payment rows to a CEMTEX "ABA"
    direct-entry file, and the properties of its three record encoders and of
    the document assembler.

    - [JS]: the JavaScript built-ins the script calls (string methods,
      [parseFloat], [Math.round], Number addition and [String(n)]).
    - the script's own functions, under their own names.
    - the theorems. *)

From Stdlib Require Import ZArith Lia List Bool Ascii String SpecFloat.
Import ListNotations.
Local Open Scope string_scope.

(** ** Results of code that may [throw] *)

Inductive result (A : Type) : Type :=
| Ok (a : A)
| Throw (message : string).
Arguments Ok {A} a.
Arguments Throw {A} message.

Definition bind {A B : Type} (r : result A) (k : A -> result B) : result B :=
  match r with
  | Ok a => k a
  | Throw m => Throw m
  end.

Notation "x <- r ;; k" := (bind r (fun x => k))
  (at level 61, r at next level, right associativity).

(** ** The JavaScript built-ins used by the script *)

Module JS.

(** *** Strings

    A string is a sequence of code units; the model carries the code units
    below 256 as [ascii]. *)

(** WhiteSpace and LineTerminator code units (TAB, LF, VT, FF, CR, SP, NBSP),
    the ones [trim] and [parseFloat] strip. *)
Definition isWhiteSpace (c : ascii) : bool :=
  let n := nat_of_ascii c in
  ((n =? 9) || (n =? 10) || (n =? 11) || (n =? 12) || (n =? 13)
   || (n =? 32) || (n =? 160))%nat.

Fixpoint trimStart (s : string) : string :=
  match s with
  | String c s' => if isWhiteSpace c then trimStart s' else s
  | EmptyString => EmptyString
  end.

Fixpoint trimEnd (s : string) : string :=
  match s with
  | EmptyString => EmptyString
  | String c s' =>
      match trimEnd s' with
      | EmptyString => if isWhiteSpace c then EmptyString else String c EmptyString
      | t => String c t
      end
  end.

(** [s.trim()] *)
Definition trim (s : string) : string := trimEnd (trimStart s).

(** [s.repeat(n)] *)
Fixpoint repeat (s : string) (n : nat) : string :=
  match n with
  | O => EmptyString
  | S k => s ++ repeat s k
  end.

(** [s.padStart(targetLength, padString)]: nothing is added to a string that
    is already long enough; otherwise the filler is [padString] repeated and
    cut to the missing length. *)
Definition padStart (s : string) (targetLength : nat) (padString : string) : string :=
  if (targetLength <=? length s)%nat then s
  else if (length padString =? 0)%nat then s
  else
    let fillLen := (targetLength - length s)%nat in
    substring 0 fillLen (repeat padString fillLen) ++ s.

(** [s.padEnd(targetLength, padString)] *)
Definition padEnd (s : string) (targetLength : nat) (padString : string) : string :=
  if (targetLength <=? length s)%nat then s
  else if (length padString =? 0)%nat then s
  else
    let fillLen := (targetLength - length s)%nat in
    s ++ substring 0 fillLen (repeat padString fillLen).

(** [s.replace(pattern, replacement)] with a string pattern: only the first
    occurrence is replaced. (The script's replacement is the empty string, so
    no [$]-pattern of the replacement is involved.) *)
Fixpoint replace (s pattern replacement : string) : string :=
  if prefix pattern s
  then replacement ++ substring (length pattern) (length s - length pattern) s
  else match s with
       | EmptyString => EmptyString
       | String c s' => String c (replace s' pattern replacement)
       end.

(** [s.slice(start)], [start] possibly negative (counted from the end). *)
Definition slice (s : string) (start : Z) : string :=
  let len := Z.of_nat (length s) in
  let from := if (start <? 0)%Z then Z.max (len + start) 0 else Z.min start len in
  substring (Z.to_nat from) (Z.to_nat (len - from)) s.

(** [parts.join(separator)] *)
Definition join (separator : string) (parts : list string) : string :=
  String.concat separator parts.

(** *** Decimal digits *)

Definition digitChar (d : Z) : ascii := ascii_of_nat (48 + Z.to_nat d).

Definition isDigit (c : ascii) : bool :=
  let n := nat_of_ascii c in ((48 <=? n) && (n <=? 57))%nat.

Definition digitValue (c : ascii) : Z := (Z.of_nat (nat_of_ascii c) - 48)%Z.

Fixpoint decimal_aux (fuel : nat) (n : Z) (acc : string) : string :=
  match fuel with
  | O => acc
  | S f =>
      let acc' := String (digitChar (n mod 10)) acc in
      if (n <? 10)%Z then acc' else decimal_aux f (n / 10) acc'
  end.

(** The decimal digits of a non-negative integer, without leading zeros. *)
Definition decimal (n : Z) : string :=
  decimal_aux (S (Z.to_nat (Z.log2 n))) n EmptyString.

(** *** Numbers

    A Number is an IEEE 754 binary64 value. The values [parseFloat] and [*]
    produce are carried as the Standard Library's [spec_float], with its
    operations at precision 53 and [emax] 1024. *)

Definition prec : Z := 53.
Definition emax : Z := 1024.
Definition float64 : Type := spec_float.

(** The integral Numbers, which is what [Math.round], the running total and
    an array length are: NaN, the two infinities, or an integer that binary64
    represents, carried by its value. (Negative zero is carried as [Int 0]:
    the script observes these Numbers only through [+], [String] and
    [!== null], where the two zeros behave alike.) *)
Inductive number : Type :=
| NaN
| Infinity (negative : bool)
| Int (z : Z).

Definition number_eqb (x y : number) : bool :=
  match x, y with
  | NaN, NaN => true
  | Infinity a, Infinity b => Bool.eqb a b
  | Int a, Int b => (a =? b)%Z
  | _, _ => false
  end.

(** The binary64 value nearest to the decimal [M * 10^E] ([M >= 0]), ties to
    even: the Number value of a decimal literal. *)
Definition ofDecimal (negative : bool) (M E : Z) : float64 :=
  match M with
  | Z0 => S754_zero negative
  | Zpos _ =>
      if (0 <=? E)%Z
      then binary_normalize prec emax (cond_Zopp negative (M * 10 ^ E)) 0 false
      else
        let '(q, e, l) := SFdiv_core_binary prec emax M 0 (10 ^ (- E)) 0 in
        binary_round_aux prec emax negative q e l
  | Zneg _ => S754_nan
  end.

(** Reads a (possibly empty) run of decimal digits: the value read on top of
    [acc], the number of digits, and the rest of the string. *)
Fixpoint scanDigits (s : string) (acc : Z) (n : nat) : Z * nat * string :=
  match s with
  | String c s' =>
      if isDigit c then scanDigits s' (10 * acc + digitValue c)%Z (S n)
      else (acc, n, s)
  | EmptyString => (acc, n, s)
  end.

(** The value of an ExponentPart at the head of [s], 0 when there is none
    (an [e] that no digit follows is not part of the literal). *)
Definition parseExponent (s : string) : Z :=
  match s with
  | String c s' =>
      if ((c =? "e") || (c =? "E"))%char then
        let '(neg, s'') :=
          match s' with
          | String "+"%char t => (false, t)
          | String "-"%char t => (true, t)
          | _ => (false, s')
          end in
        let '(v, n, _) := scanDigits s'' 0 0 in
        if (n =? 0)%nat then 0%Z else if neg then (- v)%Z else v
      else 0%Z
  | EmptyString => 0%Z
  end.

(** [parseFloat(s)]: leading white space is skipped, then the longest prefix
    that is a StrDecimalLiteral is read; NaN when there is none. *)
Definition parseFloat (s : string) : float64 :=
  let t := trimStart s in
  let '(neg, u) :=
    match t with
    | String "-"%char r => (true, r)
    | String "+"%char r => (false, r)
    | _ => (false, t)
    end in
  if prefix "Infinity" u then S754_infinity neg
  else
    let '(i, ni, r1) := scanDigits u 0 0 in
    let '(M, nf, r2) :=
      match r1 with
      | String "."%char r =>
          let '(m, n, r') := scanDigits r i 0 in
          if ((ni =? 0) && (n =? 0))%nat then (i, O, r1) else (m, n, r')
      | _ => (i, O, r1)
      end in
    if (ni + nf =? 0)%nat then S754_nan
    else ofDecimal neg M (parseExponent r2 - Z.of_nat nf).

(** [x * 100] *)
Definition hundred : float64 := binary_normalize prec emax 100 0 false.
Definition mul (x y : float64) : float64 := SFmul prec emax x y.

(** [Math.round(x)]: the integer nearest to [x], the larger one at a tie,
    that is [floor (x + 1/2)] computed exactly. *)
Definition Math_round (x : float64) : number :=
  match x with
  | S754_nan => NaN
  | S754_infinity s => Infinity s
  | S754_zero _ => Int 0
  | S754_finite s m e =>
      let sm := cond_Zopp s (Zpos m) in
      Int (match e with
           | Zneg k => (2 * sm + 2 ^ Zpos k) / 2 ^ (Zpos k + 1)
           | _ => sm * 2 ^ e
           end)%Z
  end.

(** The binary64 value nearest to an integer, ties to even: integers of at
    most 53 bits are kept; a longer one is rounded at its 53rd bit and
    overflows to an infinity from [2^1024] on. *)
Definition roundInt (z : Z) : number :=
  let a := Z.abs z in
  let d := (Z.log2 a + 1)%Z in
  if (d <=? prec)%Z then Int z
  else
    let sh := (d - prec)%Z in
    let q := (a / 2 ^ sh)%Z in
    let r := (a mod 2 ^ sh)%Z in
    let half := (2 ^ (sh - 1))%Z in
    let q' := if ((half <? r) || ((r =? half) && Z.odd q))%Z then (q + 1)%Z else q in
    if (2 ^ emax <=? q' * 2 ^ sh)%Z then Infinity (z <? 0)%Z
    else Int (Z.sgn z * (q' * 2 ^ sh))%Z.

(** [x + y] on integral Numbers: the exact sum, rounded. *)
Definition add (x y : number) : number :=
  match x, y with
  | NaN, _ | _, NaN => NaN
  | Infinity a, Infinity b => if Bool.eqb a b then Infinity a else NaN
  | Infinity a, Int _ => Infinity a
  | Int _, Infinity b => Infinity b
  | Int a, Int b => roundInt (a + b)
  end.

(** Number::toString for an integer [m >= 2^53]: the digits [s] ([k] of them,
    [k] as small as possible) and the position [n] with [s * 10^(n-k)]
    rounding to [m]; of several [s], the one nearest to [m], then the even
    one. *)
Definition candidates (m k : Z) : list (Z * Z) :=
  let nm := Z.of_nat (length (decimal m)) in
  filter (fun '(s, n) =>
            ((10 ^ (k - 1) <=? s) && (s <? 10 ^ k))%Z
            && number_eqb (roundInt (s * 10 ^ (n - k))) (Int m))
    [ (m / 10 ^ (nm - k), nm); (m / 10 ^ (nm - k) + 1, nm); (10 ^ (k - 1), nm + 1) ]%Z.

Definition nearer (m k : Z) (c1 c2 : Z * Z) : Z * Z :=
  let dist := fun '(s, n) => Z.abs (s * 10 ^ (n - k) - m) in
  if (dist c1 <? dist c2)%Z then c1
  else if (dist c2 <? dist c1)%Z then c2
  else if Z.even (fst c1) then c1 else c2.

Fixpoint shortest (fuel : nat) (m k : Z) : Z * Z * Z :=
  match fuel with
  | O => (m, Z.of_nat (length (decimal m)), Z.of_nat (length (decimal m)))
  | S f =>
      match candidates m k with
      | [] => shortest f m (k + 1)
      | c :: cs => let '(s, n) := fold_left (nearer m k) cs c in (s, n, k)
      end
  end.

Definition toStringPos (m : Z) : string :=
  if (m <? 2 ^ prec)%Z then decimal m
  else
    let '(s, n, k) := shortest (length (decimal m)) m 1 in
    let digits := decimal s in
    if (n <=? 21)%Z then digits ++ repeat "0" (Z.to_nat (n - k))
    else
      match digits with
      | String d EmptyString => String d ("e+" ++ decimal (n - 1))
      | String d ds => String d ("." ++ ds ++ "e+" ++ decimal (n - 1))
      | EmptyString => EmptyString
      end.

(** [String(x)] *)
Definition toString (x : number) : string :=
  match x with
  | NaN => "NaN"
  | Infinity false => "Infinity"
  | Infinity true => "-Infinity"
  | Int z => if (z <? 0)%Z then "-" ++ toStringPos (- z) else toStringPos z
  end.

End JS.

(** ** The script *)

Import JS.

(** A row object of the parsed CSV: [row[col]] is a string, or [undefined]
    when the column is absent (or [null]). *)
Inductive value : Type :=
| Undefined
| Null
| Str (s : string).

Definition Row : Type := string -> value.

(** The names every plain object inherits from [Object.prototype]. Read at
    one of them, an object that has no such property of its own gives the
    inherited function (or, for [__proto__], the prototype), which is not a
    [value]: a row is never read there, by the script or by a statement
    below. *)
Definition Object_prototype : list string :=
  [ "constructor"; "__defineGetter__"; "__defineSetter__"; "hasOwnProperty";
    "__lookupGetter__"; "__lookupSetter__"; "isPrototypeOf";
    "propertyIsEnumerable"; "toString"; "valueOf"; "__proto__";
    "toLocaleString" ].

(** An object literal [{k1: v1, ...}], read at a name that is its own or
    that [Object.prototype] does not define: any of the five column names,
    for one. *)
Definition object (fields : list (string * string)) : Row :=
  fun key =>
    match find (fun kv => (fst kv =? key)%string) fields with
    | Some kv => Str (snd kv)
    | None => Undefined
    end.

(** A method call on [row[col]] is a TypeError unless it is a string. *)
Definition str (v : value) : result string :=
  match v with
  | Str s => Ok s
  | Undefined => Throw "TypeError: Cannot read properties of undefined"
  | Null => Throw "TypeError: Cannot read properties of null"
  end.

(** What [new Date()] is read for. *)
Record Date : Type := { getDate : Z; getMonth : Z; getFullYear : Z }.

Definition SPACE : string := " ".
Definition ZERO : string := "0".
Definition LINE_LENGTH : nat := 120.
(** The [Set] is iterated in insertion order. *)
Definition CSV_COLUMNS : list string := ["BSB"; "Reference"; "Name"; "Account"; "Amount"].

Module RecordTypes.
Definition DESCRIPTIVE : string := "0".
Definition DETAIL : string := "1".
Definition FIELD_TOTAL : string := "7".
End RecordTypes.

(** The line feed of ['\n']. *)
Definition LF : string := String "010"%char EmptyString.

Definition assertion_failed (what : string) (len : nat) : string :=
  "Assertion failed: " ++ what ++ " record length is "
    ++ toString (Int (Z.of_nat len)) ++ ", expected "
    ++ toString (Int (Z.of_nat LINE_LENGTH)).

Definition generate_descriptive_record (today : Date) : result string :=
  let day := padStart (toString (Int (getDate today))) 2 ZERO in
  let month := padStart (toString (add (Int (getMonth today)) (Int 1))) 2 ZERO in
  let year := slice (toString (Int (getFullYear today))) (-2) in
  let processDate := day ++ month ++ year in
  let origin :=
    [ RecordTypes.DESCRIPTIVE;
      repeat SPACE 17;
      "01";
      "CBA";
      repeat SPACE 7;
      padEnd "Meya" 26 SPACE;
      padStart "00" 6 ZERO;
      padEnd "PAYROLL" 12 SPACE;
      processDate;
      repeat SPACE 40 ] in
  let descriptive_record := join "" origin in
  if (length descriptive_record =? LINE_LENGTH)%nat
  then Ok descriptive_record
  else Throw (assertion_failed "Descriptive" (length descriptive_record)).

(** [row[col] === undefined || row[col] === null || row[col].trim() === ''] *)
Definition isBlank (v : value) : bool :=
  match v with
  | Undefined => true
  | Null => true
  | Str s => (trim s =? "")%string
  end.

(** The locals [amountStr] and [amount_in_cents], as functions of
    [row['Amount']]. *)
Definition amountStr (amount : string) : string :=
  trim (replace (replace amount "$" "") "," "").

Definition amount_in_cents (amount : string) : number :=
  Math_round (mul (parseFloat (amountStr amount)) hundred).

Definition generate_detail_record (row : Row) : result (option string * option number) :=
  if existsb (fun col => isBlank (row col)) CSV_COLUMNS
  then Ok (None, None)
  else
    amount <- str (row "Amount") ;;
    let amount_in_cents := amount_in_cents amount in
    bsb <- str (row "BSB") ;;
    let bsb := trim bsb in
    account <- str (row "Account") ;;
    let account := trim account in
    name <- str (row "Name") ;;
    let name := trim name in
    reference <- str (row "Reference") ;;
    let reference := trim reference in
    let detail_record :=
      join ""
        [ RecordTypes.DETAIL;
          bsb;
          padStart account 9 SPACE;
          " ";
          "53";
          padStart (toString amount_in_cents) 10 ZERO;
          padEnd name 32 SPACE;
          padEnd reference 18 SPACE;
          bsb;
          padStart account 9 SPACE;
          padEnd "Meya" 16 SPACE;
          repeat ZERO 8 ] in
    if (length detail_record =? LINE_LENGTH)%nat
    then Ok (Some detail_record, Some amount_in_cents)
    else Throw (assertion_failed "Detail" (length detail_record)).

Definition generate_file_total_record (aba_content : list string) (total_amount : number)
  : result string :=
  let detail_record_count := Int (Z.of_nat (List.length aba_content) - 1) in
  let trailer_record :=
    join ""
      [ RecordTypes.FIELD_TOTAL;
        "999-999";
        repeat SPACE 12;
        padStart (toString total_amount) 10 ZERO;
        padStart (toString total_amount) 10 ZERO;
        repeat ZERO 10;
        repeat SPACE 24;
        padStart (toString detail_record_count) 6 ZERO;
        repeat SPACE 40 ] in
  if (length trailer_record =? LINE_LENGTH)%nat
  then Ok trailer_record
  else Throw (assertion_failed "Trailer" (length trailer_record)).

(** [array.push(x)]: an array holds at most [2^32 - 1] elements, and [push]
    on a full one throws. *)
Definition push (array : list string) (x : string) : result (list string) :=
  if (2 ^ 32 - 1 <=? Z.of_nat (List.length array))%Z
  then Throw "RangeError: Invalid array length"
  else Ok (array ++ [x])%list.

(** The [for (const row of csvData)] loop of [processCsvToAba], on the state
    [(aba_content, total_amount)]. *)
Fixpoint for_rows (csvData : list Row) (aba_content : list string) (total_amount : number)
  : result (list string * number) :=
  match csvData with
  | [] => Ok (aba_content, total_amount)
  | row :: rest =>
      r <- generate_detail_record row ;;
      match r with
      | (Some detail_record, Some amount_in_cents) =>
          aba_content <- push aba_content detail_record ;;
          for_rows rest aba_content (add total_amount amount_in_cents)
      | _ => for_rows rest aba_content total_amount
      end
  end.

Definition processCsvToAba (today : Date) (csvData : list Row) : result string :=
  header <- generate_descriptive_record today ;;
  aba_content <- push [] header ;;
  st <- for_rows csvData aba_content (Int 0) ;;
  let '(aba_content, total_amount) := st in
  trailer <- generate_file_total_record aba_content total_amount ;;
  aba_content <- push aba_content trailer ;;
  Ok (join LF aba_content ++ LF).

(** ** Rows, as the claims speak of them *)

(** A row passes validation when each of the five columns holds a string
    that is not blank. *)
Definition valid (row : Row) : Prop :=
  forall col, In col CSV_COLUMNS -> exists s, row col = Str s /\ trim s <> "".

(** A row misses a field when one of the five columns is absent, null, empty
    or white space only. *)
Definition missing (row : Row) : Prop :=
  exists col, In col CSV_COLUMNS /\
    (row col = Undefined \/ row col = Null \/ exists s, row col = Str s /\ trim s = "").

(** The dates [new Date()] is taken to give: a day of a month, of a year
    from 10 up to the last year a [Date] holds. *)
Definition calendar (today : Date) : Prop :=
  (1 <= getDate today <= 31 /\ 0 <= getMonth today <= 11
   /\ 10 <= getFullYear today <= 275760)%Z.

(** The trimmed text of a column, as [generate_detail_record] uses it. *)
Definition column (row : Row) (col : string) : string :=
  match row col with
  | Str s => trim s
  | _ => EmptyString
  end.

(** A row fits the layout when its BSB has the seven characters of
    [NNN-NNN] and its account, name and reference are no wider than their
    fields. *)
Definition fits (row : Row) : Prop :=
  length (column row "BSB") = 7 /\ length (column row "Account") <= 9
  /\ length (column row "Name") <= 32 /\ length (column row "Reference") <= 18.

(** The amount [generate_detail_record] computes for a row. *)
Definition cents (row : Row) : number :=
  match row "Amount" with
  | Str amount => amount_in_cents amount
  | _ => NaN
  end.

(** The layout of a detail record: the twelve fields [generate_detail_record]
    joins, for the trimmed BSB, account, name and reference and the amount. *)
Definition detail_record_of (bsb account name reference : string) (amt : number) : string :=
  join ""
    [ "1"; bsb; padStart account 9 " "; " "; "53";
      padStart (toString amt) 10 "0";
      padEnd name 32 " "; padEnd reference 18 " ";
      bsb; padStart account 9 " ";
      "Meya            "; "00000000" ].

(** The detail record and amount a row is accepted with, if it is. *)
Definition accepted (row : Row) : list (string * number) :=
  match generate_detail_record row with
  | Ok (Some detail_record, Some amount_in_cents) => [(detail_record, amount_in_cents)]
  | _ => []
  end.

Definition accepted_details (csvData : list Row) : list (string * number) :=
  flat_map accepted csvData.

(** The arithmetic sum of integers. *)
Definition sum (zs : list Z) : Z := fold_right Z.add 0%Z zs.

(** The running total after the accepted amounts: [total_amount +=] from 0,
    in row order. *)
Definition running_total (amounts : list number) : number :=
  fold_left add amounts (Int 0).

(** [doc] is the document made of [header], the accepted detail records of
    [csvData] in row order and [trailer], one per line. *)
Definition assembled (today : Date) (csvData : list Row) (doc header trailer : string)
  : Prop :=
  generate_descriptive_record today = Ok header
  /\ doc = join LF (header :: map fst (accepted_details csvData) ++ [trailer]) ++ LF.

(** The trailer of a batch without a detail record. *)
Definition empty_trailer : string :=
  "7999-999            000000000000000000000000000000                        000000                                        ".

(** The normalization of an amount in the specification's words: a leading
    currency symbol and every comma are stripped, the rest is trimmed, parsed,
    multiplied by 100 and rounded. *)
Definition strip_leading_symbol (s : string) : string :=
  match s with
  | String "$"%char r => r
  | _ => s
  end.

Fixpoint strip_all (c : ascii) (s : string) : string :=
  match s with
  | EmptyString => EmptyString
  | String x s' => if (x =? c)%char then strip_all c s' else String x (strip_all c s')
  end.

Definition spec_minor_units (amount : string) : number :=
  Math_round
    (mul (parseFloat (trim (strip_all ","%char (strip_leading_symbol amount)))) hundred).

(** ** Reading a record

    [chars a b record] is the field at character positions [a] to [b] of a
    record, numbered from 1 as in the format's tables. *)
Definition chars (a b : nat) (record : string) : string :=
  substring (a - 1) (b - a + 1) record.

(** The number a field shows, when the field is made of decimal digits only. *)
Fixpoint readDigits (s : string) (acc : Z) : option Z :=
  match s with
  | EmptyString => Some acc
  | String c s' => if isDigit c then readDigits s' (10 * acc + digitValue c)%Z else None
  end.

Definition fieldValue (field : string) : option Z := readDigits field 0.

(** ** Sample inputs *)

Definition the_3rd_of_November_2026 : Date :=
  {| getDate := 3; getMonth := 10; getFullYear := 2026 |}.

(** The row of the format's example record, with a given [Amount]. *)
Definition smith (amount : string) : Row :=
  object [ ("BSB", "000-000"); ("Reference", "TEST"); ("Name", "R SMITH");
           ("Account", "157108231"); ("Amount", amount) ].

(** A trailing blank row of the CSV. *)
Definition blank_row : Row :=
  object [ ("BSB", ""); ("Reference", ""); ("Name", ""); ("Account", "");
           ("Amount", "") ].

(** A payee name of 33 characters. *)
Definition long_name_row : Row :=
  object [ ("BSB", "000-000"); ("Reference", "TEST");
           ("Name", "ROBERT ALEXANDER SMITH-WILLIAMSON");
           ("Account", "157108231"); ("Amount", "$12.00") ].


(** The same BSB and name with the [Amount] "$1,234.56". *)
Definition shifted_1234_56 : Row :=
  object [ ("BSB", "00-000"); ("Reference", "TEST");
           ("Name", "9 LIVES PET SUPPLIES PTY LTD PERTH");
           ("Account", "157108231"); ("Amount", "$1,234.56") ].

(** A payee name of 33 characters with the [Amount] "$1,234.56". *)
Definition long_name_1234_56 : Row :=
  object [ ("BSB", "000-000"); ("Reference", "TEST");
           ("Name", "ROBERT ALEXANDER SMITH-WILLIAMSON");
           ("Account", "157108231"); ("Amount", "$1,234.56") ].

(** An account number shorter than its field. *)
Definition short_account_row : Row :=
  object [ ("BSB", "000-000"); ("Reference", " TEST"); ("Name", "R SMITH ");
           ("Account", " 12-34 "); ("Amount", "  $12.00 ") ].

(** ** The CSV reader and the entry point *)

(** At most [n] elements of a list: the limit of [split]. *)
Fixpoint limit {A : Type} (l : list A) (n : N) : list A :=
  match l with
  | [] => []
  | x :: l' => if (n =? 0)%N then [] else x :: limit l' (N.pred n)
  end.

(** The parts of [s] between the occurrences of a non-empty separator,
    found from left to right: [cur] is the part being read and [skip] the
    number of characters of a separator still to pass. *)
Fixpoint split_from (separator s : string) (skip : nat) (cur : string) : list string :=
  match s with
  | EmptyString => [cur]
  | String c s' =>
      match skip with
      | S k => split_from separator s' k cur
      | O =>
          if prefix separator s
          then cur :: split_from separator s' (length separator - 1) EmptyString
          else split_from separator s' 0 (cur ++ String c EmptyString)
      end
  end.

(** [s.split(separator)]: with the empty separator the code units, one by
    one; never more than [2^32 - 1] parts. *)
Definition split (s separator : string) : list string :=
  limit
    (match separator with
     | EmptyString => map (fun c => String c EmptyString) (list_ascii_of_string s)
     | _ => split_from separator s 0 EmptyString
     end)
    (2 ^ 32 - 1).

(** [array.includes(x)] on strings. *)
Definition includes (array : list string) (x : string) : bool :=
  existsb (String.eqb x) array.

(** A row object as [parseCsv] builds it: its own properties, all strings,
    in the order they were created. *)
Definition rowObject : Type := list (string * string).

(** [o[key] = v]: an existing property keeps its place; setting ["__proto__"]
    to a string creates no property. *)
Definition assign (o : rowObject) (key v : string) : rowObject :=
  if (key =? "__proto__")%string then o
  else if includes (map fst o) key
       then map (fun kv => if (fst kv =? key)%string then (key, v) else kv) o
       else (o ++ [(key, v)])%list.

(** The array index a property key is, if it is one: the decimal digits of
    an integer up to [2^32 - 2]. *)
Definition arrayIndex (key : string) : option Z :=
  match fieldValue key with
  | Some n => if ((decimal n =? key)%string && (n <=? 2 ^ 32 - 2)%Z)%bool then Some n else None
  | None => None
  end.

Fixpoint insert_index (n : Z) (key : string) (sorted : list (Z * string))
  : list (Z * string) :=
  match sorted with
  | [] => [(n, key)]
  | (n', key') :: rest =>
      if (n <=? n')%Z then (n, key) :: sorted
      else (n', key') :: insert_index n key rest
  end.

(** [Object.keys(o)]: the array indices in ascending order, then the other
    keys in the order they were created. *)
Definition Object_keys (o : rowObject) : list string :=
  (map snd
     (fold_right
        (fun key sorted =>
           match arrayIndex key with
           | Some n => insert_index n key sorted
           | None => sorted
           end)
        [] (map fst o))
   ++ filter (fun key => match arrayIndex key with Some _ => false | None => true end)
        (map fst o))%list.

(** The row the encoders read: [row[col]] for the properties of the object,
    and [undefined] for a name it does not have; as for [object], not at a
    name of [Object_prototype] that is not its own. *)
Definition row_of (o : rowObject) : Row := object o.

(** The body of the inner loop of [parseCsv]: [rowObject[header[j]] =
    values[j] ? values[j].trim() : '']. *)
Definition assign_column (header values : list string) (o : rowObject) (j : nat)
  : rowObject :=
  assign o (nth j header EmptyString)
    (match nth_error values j with
     | Some v => if (v =? "")%string then EmptyString else trim v
     | None => EmptyString
     end).

(** The inner loop, for [j] from [0] to [header.length - 1]. *)
Definition parse_values (header values : list string) : rowObject :=
  fold_left (assign_column header values) (seq 0 (List.length header)) [].

(** One turn of the outer loop of [parseCsv]: nothing is pushed for an empty
    line. *)
Definition parse_line (header : list string) (line : string) : list rowObject :=
  let values := split line "," in
  if ((List.length values =? 1)%nat && (trim (nth 0 values EmptyString) =? "")%string)%bool
  then []
  else [parse_values header values].

Definition parseCsv (csvText : string) : list rowObject :=
  let lines := split (trim csvText) LF in
  match lines with
  | [] => []
  | first :: rest =>
      let header := map trim (split first ",") in
      flat_map (parse_line header) rest
  end.

(** What [csv2aba] touches of the page: the lines of [console.error] and the
    text of the element that the global [statusMessage] names, if there is
    one. *)
Record page : Type := { console : list string; statusMessage : option string }.

(** [csv2aba(text)]: what the call returns or throws, and the page after it;
    [None] is for [undefined]. What was logged before a throw stays
    logged. *)
Definition csv2aba (today : Date) (text : string) (p : page)
  : result (option string) * page :=
  let csvData := parseCsv text in
  let header := match csvData with o :: _ => Object_keys o | [] => [] end in
  let missingColumns := filter (fun col => negb (includes header col)) CSV_COLUMNS in
  if (0 <? List.length missingColumns)%nat then
    let errorMessage :=
      "Error: Missing required CSV columns: " ++ join ", " missingColumns in
    let p := {| console := (console p ++ [errorMessage])%list;
                statusMessage := statusMessage p |} in
    match statusMessage p with
    | None => (Throw "ReferenceError: statusMessage is not defined", p)
    | Some _ =>
        (Ok None, {| console := console p; statusMessage := Some errorMessage |})
    end
  else
    match processCsvToAba today (map row_of csvData) with
    | Ok abaContent => (Ok (Some abaContent), p)
    | Throw e => (Throw e, p)
    end.

(** The name [generateDownload] gives the file: the name of the chosen file
    with a final [.csv], in any letter case, replaced by [.aba]
    ([replace(/\.csv$/i, '.aba')]), or the time in milliseconds when no file
    was chosen. *)
Definition matches_csv (suffix : string) : bool :=
  match suffix with
  | String d (String c (String s (String v EmptyString))) =>
      ((d =? ".") && ((c =? "c") || (c =? "C")) && ((s =? "s") || (s =? "S"))
       && ((v =? "v") || (v =? "V")))%char
  | _ => false
  end.

Definition replace_csv_suffix (name : string) : string :=
  let n := length name in
  if ((4 <=? n)%nat && matches_csv (substring (n - 4) 4 name))%bool
  then substring 0 (n - 4) name ++ ".aba"
  else name.

Definition abaFilename (files : list string) (now : Z) : string :=
  match files with
  | originalFilename :: _ => replace_csv_suffix originalFilename
  | [] => toString (Int now) ++ ".aba"
  end.

(** An amount of cents written in dollars with two decimals. *)
Definition two_decimals (c : Z) : string :=
  decimal (c / 100) ++ "."
    ++ String (digitChar ((c / 10) mod 10)) (String (digitChar (c mod 10)) EmptyString).

(** [P] on the [fuel] integers from [c] on. *)
Fixpoint all_from (fuel : nat) (c : Z) (P : Z -> bool) : bool :=
  match fuel with
  | O => true
  | S k => P c && all_from k (c + 1)%Z P
  end.

(** A string without a given character. *)
Fixpoint without (c : ascii) (s : string) : Prop :=
  match s with
  | EmptyString => True
  | String x s' => x <> c /\ without c s'
  end.

(** The carriage return, and a text with each line feed preceded by one, as
    a file with Windows line ends has them. *)
Definition CR : string := String "013"%char EmptyString.

Fixpoint crlf (s : string) : string :=
  match s with
  | EmptyString => EmptyString
  | String c s' =>
      if (c =? "010")%char then String "013"%char (String "010"%char (crlf s'))
      else String c (crlf s')
  end.

(** [a] is [b], possibly with a carriage return at its end. *)
Definition with_cr (a b : string) : Prop := a = b \/ a = b ++ CR.

(** A string that does not begin with white space. *)
Definition headed (s : string) : Prop :=
  match s with
  | EmptyString => True
  | String c _ => isWhiteSpace c = false
  end.

(** ** Facts about the string built-ins *)

Section StringFacts.

Lemma length_append (a b : string) : length (a ++ b) = length a + length b.
Proof. induction a as [|c a IH]; simpl; [reflexivity | now rewrite IH]. Qed.

Lemma append_assoc (a b c : string) : (a ++ b) ++ c = a ++ (b ++ c).
Proof. induction a as [|x a IH]; simpl; [reflexivity | now rewrite IH]. Qed.

Lemma append_empty_r (a : string) : a ++ "" = a.
Proof. induction a as [|x a IH]; simpl; [reflexivity | now rewrite IH]. Qed.

Lemma length_repeat (s : string) (n : nat) : length (repeat s n) = n * length s.
Proof.
  induction n as [|n IH]; simpl; [reflexivity |].
  rewrite length_append, IH. reflexivity.
Qed.

Lemma length_substring_0 (n : nat) (s : string) :
  length (substring 0 n s) = Nat.min n (length s).
Proof.
  revert s; induction n as [|n IH]; intros [|c s]; simpl; try reflexivity.
  now rewrite IH.
Qed.

Lemma substring_0_length (s : string) : substring 0 (length s) s = s.
Proof. induction s as [|c s IH]; simpl; [reflexivity | now rewrite IH]. Qed.

Lemma substring_0_append (a b : string) : substring 0 (length a) (a ++ b) = a.
Proof. induction a as [|c a IH]; simpl; [now destruct b | now rewrite IH]. Qed.

Lemma substring_skip (p : string) (n m : nat) (s : string) :
  substring (length p + n) m (p ++ s) = substring n m s.
Proof. induction p as [|c p IH]; simpl; [reflexivity | exact IH]. Qed.

(** The field that follows a prefix [p] in a record. *)
Lemma substring_field (p f rest : string) :
  substring (length p) (length f) (p ++ f ++ rest) = f.
Proof.
  rewrite <- (Nat.add_0_r (length p)), substring_skip.
  apply substring_0_append.
Qed.

Lemma length_fill (p : string) (k : nat) :
  p <> "" -> length (substring 0 k (repeat p k)) = k.
Proof.
  intros Hp. rewrite length_substring_0, length_repeat.
  destruct p as [|c p]; [congruence | simpl; nia].
Qed.

Lemma length_padStart (s : string) (n : nat) (p : string) :
  p <> "" -> length (padStart s n p) = Nat.max (length s) n.
Proof.
  intros Hp. unfold padStart.
  destruct (Nat.leb_spec n (length s)); [lia |].
  destruct p as [|c p]; [congruence |]. cbn [length Nat.eqb].
  rewrite length_append, length_fill by discriminate. lia.
Qed.

Lemma length_padEnd (s : string) (n : nat) (p : string) :
  p <> "" -> length (padEnd s n p) = Nat.max (length s) n.
Proof.
  intros Hp. unfold padEnd.
  destruct (Nat.leb_spec n (length s)); [lia |].
  destruct p as [|c p]; [congruence |]. cbn [length Nat.eqb].
  rewrite length_append, length_fill by discriminate. lia.
Qed.

(** Padding with a one-character filler. *)
Lemma padStart_char (s : string) (n : nat) (c : ascii) :
  padStart s n (String c "") = repeat (String c "") (n - length s) ++ s.
Proof.
  unfold padStart. destruct (Nat.leb_spec n (length s)) as [H|H].
  - replace (n - length s) with 0 by lia. reflexivity.
  - cbn [length Nat.eqb].
    replace (substring 0 (n - length s) (repeat (String c "") (n - length s)))
      with (repeat (String c "") (n - length s)); [reflexivity |].
    set (k := n - length s).
    rewrite <- (substring_0_length (repeat (String c "") k)) at 1.
    rewrite length_repeat. simpl. now rewrite Nat.mul_1_r.
Qed.

Lemma length_substring (n m : nat) (s : string) :
  length (substring n m s) = Nat.min m (length s - n).
Proof.
  revert n m; induction s as [|c s IH]; intros [|n] [|m]; simpl; try reflexivity.
  - now rewrite IH, Nat.sub_0_r.
  - apply IH.
  - apply IH.
Qed.

(** A field of known width after a prefix of known length. *)
Lemma substring_at (n m : nat) (pre f rest : string) :
  length pre = n -> length f = m -> substring n m (pre ++ f ++ rest) = f.
Proof. intros <- <-. apply substring_field. Qed.

End StringFacts.

(** Lengths of records built from padded fields. *)
Ltac lengths :=
  repeat first
    [ rewrite length_append
    | rewrite length_padStart by discriminate
    | rewrite length_padEnd by discriminate
    | progress cbn [length] ].

(** The field [f] of a record, between the fields [pre] and [rest]. *)
Ltac field_at pre rest :=
  unfold chars; cbn [Nat.sub Nat.add];
  match goal with
  | |- substring ?n ?m _ = ?f =>
      transitivity (substring n m (pre ++ f ++ rest));
      [ f_equal; repeat rewrite append_assoc; reflexivity
      | apply substring_at; repeat rewrite length_append; cbn [length]; lia ]
  end.

(** ** Facts about decimal digits and Numbers *)

Section NumberFacts.
Local Open Scope Z_scope.

Lemma digitChar_digit (d : Z) :
  0 <= d < 10 -> isDigit (digitChar d) = true /\ digitValue (digitChar d) = d.
Proof.
  intros H.
  assert (d = 0 \/ d = 1 \/ d = 2 \/ d = 3 \/ d = 4 \/ d = 5 \/ d = 6
          \/ d = 7 \/ d = 8 \/ d = 9) as Hd by lia.
  repeat (destruct Hd as [-> | Hd]; [split; reflexivity |]).
  subst d; split; reflexivity.
Qed.

(** No more digits than the bound allows. *)
Lemma length_decimal_aux_le (f : nat) : forall (k : nat) (n : Z) (acc : string),
  (1 <= k)%nat -> 0 <= n < 10 ^ Z.of_nat k ->
  (length (decimal_aux f n acc) <= k + length acc)%nat.
Proof.
  induction f as [|f IH]; intros k n acc Hk Hn; simpl; [lia |].
  destruct (Z.ltb_spec n 10) as [Hlt|Hge]; [simpl; lia |].
  destruct k as [|[|k]]; [lia | simpl in Hn; lia |].
  specialize (IH (S k) (n / 10) (String (digitChar (n mod 10)) acc)).
  simpl length in IH.
  assert (0 <= n / 10 < 10 ^ Z.of_nat (S k)).
  { replace (Z.of_nat (S (S k))) with (Z.succ (Z.of_nat (S k))) in Hn by lia.
    rewrite Z.pow_succ_r in Hn by lia.
    split; [apply Z.div_pos; lia | apply Z.div_lt_upper_bound; lia]. }
  specialize (IH ltac:(lia) ltac:(assumption)). lia.
Qed.


Lemma length_decimal_le (k : nat) (n : Z) :
  (1 <= k)%nat -> 0 <= n < 10 ^ Z.of_nat k -> (length (decimal n) <= k)%nat.
Proof.
  intros Hk Hn. unfold decimal.
  pose proof (length_decimal_aux_le (S (Z.to_nat (Z.log2 n))) k n "" Hk Hn) as H.
  cbn [length] in H. lia.
Qed.


(** Reading the digits written gives the number back. *)
Lemma readDigits_decimal_aux (f : nat) : forall (n : Z) (rest : string),
  0 <= n < 2 ^ Z.of_nat f ->
  readDigits (decimal_aux f n rest) 0 = readDigits rest n.
Proof.
  induction f as [|f IH]; intros n rest Hn.
  - simpl in Hn. replace n with 0 by lia. reflexivity.
  - cbn [decimal_aux].
    assert (0 <= n mod 10 < 10) as Hd by (apply Z.mod_pos_bound; lia).
    destruct (digitChar_digit _ Hd) as [Hb Hv].
    destruct (Z.ltb_spec n 10) as [Hlt|Hge].
    + cbn [readDigits]. rewrite Hb, Hv. rewrite Z.mod_small by lia. reflexivity.
    + rewrite IH.
      * cbn [readDigits]. rewrite Hb, Hv. f_equal.
        pose proof (Z.div_mod n 10). lia.
      * replace (Z.of_nat (S f)) with (Z.succ (Z.of_nat f)) in Hn by lia.
        rewrite Z.pow_succ_r in Hn by lia.
        split; [apply Z.div_pos; lia | apply Z.div_lt_upper_bound; lia].
Qed.

Lemma readDigits_decimal (n : Z) (rest : string) :
  0 <= n -> readDigits (decimal n ++ rest) 0 = readDigits rest n.
Proof.
  intros Hn.
  assert (forall f m acc, decimal_aux f m acc = decimal_aux f m "" ++ acc)%string as Happ.
  { induction f as [|f IH]; intros m acc; simpl; [reflexivity |].
    destruct (m <? 10); [reflexivity |].
    rewrite IH, (IH _ (String _ "")), append_assoc. reflexivity. }
  unfold decimal. rewrite <- Happ.
  apply readDigits_decimal_aux.
  destruct (Z.eq_dec n 0) as [->|Hz]; [simpl; lia |].
  rewrite Nat2Z.inj_succ, Z2Nat.id by apply Z.log2_nonneg.
  split; [lia | apply Z.log2_spec; lia].
Qed.

Lemma readDigits_zeros (k : nat) (s : string) :
  readDigits (repeat "0" k ++ s) 0 = readDigits s 0.
Proof. induction k as [|k IH]; simpl; [reflexivity | exact IH]. Qed.

Lemma fieldValue_padStart_decimal (n : Z) (w : nat) :
  0 <= n -> fieldValue (padStart (decimal n) w "0") = Some n.
Proof.
  intros Hn. unfold fieldValue. rewrite padStart_char, readDigits_zeros.
  rewrite <- (append_empty_r (decimal n)). now rewrite readDigits_decimal.
Qed.

(** Integers of at most 53 bits are binary64 values. *)
Lemma roundInt_small (z : Z) : Z.abs z < 2 ^ 53 -> roundInt z = Int z.
Proof.
  intros H. unfold roundInt.
  destruct (Z.leb_spec (Z.log2 (Z.abs z) + 1) prec) as [_|Hgt]; [reflexivity |].
  unfold prec in Hgt.
  destruct (Z.eq_dec (Z.abs z) 0) as [E|E]; [rewrite E in Hgt; simpl in Hgt; lia |].
  assert (Z.log2 (Z.abs z) < 53) by (apply Z.log2_lt_pow2; lia). lia.
Qed.

Lemma toString_Int (z : Z) : 0 <= z < 2 ^ 53 -> toString (Int z) = decimal z.
Proof.
  intros H. unfold toString, toStringPos, prec.
  destruct (Z.ltb_spec z 0); [lia |].
  destruct (Z.ltb_spec z (2 ^ 53)); [reflexivity | lia].
Qed.

Lemma add_NaN_r (x : number) : add x NaN = NaN.
Proof. destruct x; reflexivity. Qed.

End NumberFacts.

(** ** The Number model on known values

    [roundInt] against the Standard Library's rounding of the same integer,
    and the built-ins on values whose results are known. *)

Section ModelChecks.
Local Open Scope Z_scope.

Example roundInt_is_binary64_rounding :
  map roundInt
    [ 0; -7; 2 ^ 53; 2 ^ 53 + 1; 2 ^ 53 + 2; 2 ^ 53 + 3; - (2 ^ 53 + 1);
      10 ^ 21 + 100; 10 ^ 23; 123456789012345678901234567890;
      2 ^ 1024 - 2 ^ 970 - 1; 2 ^ 1024 - 2 ^ 970; 2 ^ 1024 ]
  = map (fun z => Math_round (binary_normalize prec emax z 0 false))
      [ 0; -7; 2 ^ 53; 2 ^ 53 + 1; 2 ^ 53 + 2; 2 ^ 53 + 3; - (2 ^ 53 + 1);
        10 ^ 21 + 100; 10 ^ 23; 123456789012345678901234567890;
        2 ^ 1024 - 2 ^ 970 - 1; 2 ^ 1024 - 2 ^ 970; 2 ^ 1024 ].
Proof. vm_compute. reflexivity. Qed.

Example parseFloat_known_values :
  parseFloat "0.1" = S754_finite false 7205759403792794 (-56)
  /\ parseFloat "1234.56" = S754_finite false 5429652300748554 (-42)
  /\ parseFloat "  12.5e1x" = S754_finite false 8796093022208000 (-46)
  /\ parseFloat "1234,567.89" = parseFloat "1234"
  /\ parseFloat "1e400" = S754_infinity false
  /\ parseFloat "5e-324" = S754_finite false 1 (-1074)
  /\ parseFloat "-Infinity" = S754_infinity true
  /\ parseFloat "." = S754_nan
  /\ parseFloat "abc" = S754_nan.
Proof. repeat split; vm_compute; reflexivity. Qed.

Example Math_round_known_values :
  Math_round (parseFloat "2.5") = Int 3
  /\ Math_round (parseFloat "-2.5") = Int (-2)
  /\ Math_round (parseFloat "-0.4") = Int 0
  /\ Math_round (mul (parseFloat "1.005") hundred) = Int 100
  /\ Math_round (mul (parseFloat "0.01") hundred) = Int 1.
Proof. repeat split; vm_compute; reflexivity. Qed.

Example toString_known_values :
  toString (Int 1200) = "1200"%string
  /\ toString (Int (-500)) = "-500"%string
  /\ toString (Int (2 ^ 60)) = "1152921504606847000"%string
  /\ toString (Int (10 ^ 21)) = "1e+21"%string
  /\ toString (roundInt (10 ^ 23)) = "1e+23"%string
  /\ toString (roundInt 123456789012345678901234567890) = "1.2345678901234568e+29"%string
  /\ add (Int (10 ^ 21)) (Int 100) = Int (10 ^ 21).
Proof. repeat split; vm_compute; reflexivity. Qed.

End ModelChecks.

(** ** The three encoders *)

Section Encoders.

(** The trailer, when it is returned: both totals take 10 characters and the
    count 6, and the record is the nine fields in order. *)
Lemma trailer_inv (aba_content : list string) (total_amount : number) (trailer : string) :
  generate_file_total_record aba_content total_amount = Ok trailer ->
  let net := padStart (toString total_amount) 10 ZERO in
  let count := padStart (toString (Int (Z.of_nat (List.length aba_content) - 1))) 6 ZERO in
  length net = 10 /\ length count = 6 /\ length trailer = 120 /\
  trailer = "7999-999            " ++ net ++ net
              ++ "0000000000                        " ++ count
              ++ "                                        ".
Proof.
  intros H net count. unfold generate_file_total_record in H.
  fold net count in H.
  set (t := join _ _) in H.
  assert (t = "7999-999            " ++ net ++ net
                ++ "0000000000                        " ++ count
                ++ "                                        ") as Et
    by (subst t; clearbody net count; reflexivity).
  destruct (Nat.eqb_spec (length t) LINE_LENGTH) as [El|El]; [|discriminate].
  injection H as <-.
  assert (10 <= length net /\ 6 <= length count) as [Hn Hc].
  { subst net count. unfold ZERO. rewrite !length_padStart by discriminate. lia. }
  pose proof El as El'. rewrite Et in El'. unfold LINE_LENGTH in El'.
  repeat rewrite length_append in El'. cbn [length] in El'.
  repeat split; try lia; assumption.
Qed.

Lemma trailer_fields (net count : string) :
  length net = 10 -> length count = 6 ->
  let trailer := "7999-999            " ++ net ++ net
                   ++ "0000000000                        " ++ count
                   ++ "                                        " in
  chars 21 30 trailer = net /\ chars 31 40 trailer = net /\
  chars 41 50 trailer = "0000000000" /\ chars 75 80 trailer = count.
Proof.
  intros Hn Hc trailer. subst trailer. repeat split.
  - field_at "7999-999            "
      (net ++ "0000000000                        " ++ count
         ++ "                                        ").
  - field_at ("7999-999            " ++ net)
      ("0000000000                        " ++ count
         ++ "                                        ").
  - field_at ("7999-999            " ++ net ++ net)
      ("                        " ++ count
         ++ "                                        ").
  - field_at ("7999-999            " ++ net ++ net
                ++ "0000000000                        ")
      "                                        ".
Qed.

(** Validation, in the words of [valid] and [missing]. *)
Lemma isBlank_false (v : value) :
  isBlank v = false <-> exists s, v = Str s /\ trim s <> "".
Proof.
  destruct v as [| |s]; simpl.
  - split; [discriminate | intros (s & H & _); discriminate].
  - split; [discriminate | intros (s & H & _); discriminate].
  - rewrite String.eqb_neq. split.
    + intros H; exists s; auto.
    + intros (s' & [= <-] & H); exact H.
Qed.

Lemma isBlank_true (v : value) :
  isBlank v = true <->
  (v = Undefined \/ v = Null \/ exists s, v = Str s /\ trim s = "").
Proof.
  destruct v as [| |s]; simpl.
  - split; auto.
  - split; auto.
  - rewrite String.eqb_eq. split.
    + intros H; right; right; exists s; auto.
    + intros [H|[H|(s' & [= <-] & H)]]; try discriminate; exact H.
Qed.

Lemma validation_fails (row : Row) :
  existsb (fun col => isBlank (row col)) CSV_COLUMNS = true <-> missing row.
Proof.
  rewrite existsb_exists. unfold missing.
  split; intros (col & Hin & H); exists col; split; auto; now apply isBlank_true.
Qed.

Lemma validation_passes (row : Row) :
  existsb (fun col => isBlank (row col)) CSV_COLUMNS = false <-> valid row.
Proof.
  rewrite <- Bool.not_true_iff_false, existsb_exists. unfold valid. split.
  - intros H col Hin. apply isBlank_false.
    destruct (isBlank (row col)) eqn:E; [|reflexivity].
    exfalso; apply H; exists col; auto.
  - intros H (col & Hin & Hb). apply H, isBlank_false in Hin. congruence.
Qed.

Lemma valid_not_missing (row : Row) : valid row <-> ~ missing row.
Proof.
  rewrite <- validation_passes, <- validation_fails.
  destruct (existsb _ _); split; congruence.
Qed.

(** What [generate_detail_record] does with a row that passes validation. *)
Lemma generate_detail_record_valid (row : Row) :
  valid row ->
  exists bsb account name reference amount,
    row "BSB" = Str bsb /\ row "Account" = Str account /\ row "Name" = Str name /\
    row "Reference" = Str reference /\ row "Amount" = Str amount /\
    generate_detail_record row =
      let record := detail_record_of (trim bsb) (trim account) (trim name)
                      (trim reference) (amount_in_cents amount) in
      if (length record =? LINE_LENGTH)%nat
      then Ok (Some record, Some (amount_in_cents amount))
      else Throw (assertion_failed "Detail" (length record)).
Proof.
  intros Hv.
  destruct (Hv "BSB") as (bsb & Eb & _); [simpl; auto |].
  destruct (Hv "Account") as (account & Ea & _); [simpl; auto 6 |].
  destruct (Hv "Name") as (name & En & _); [simpl; auto 6 |].
  destruct (Hv "Reference") as (reference & Er & _); [simpl; auto 6 |].
  destruct (Hv "Amount") as (amount & Em & _); [simpl; auto 6 |].
  exists bsb, account, name, reference, amount. repeat (split; [assumption |]).
  unfold generate_detail_record.
  apply validation_passes in Hv. rewrite Hv, Eb, Ea, En, Er, Em.
  reflexivity.
Qed.

Lemma length_detail_record_of (bsb account name reference : string) (amt : number) :
  length (detail_record_of bsb account name reference amt) =
  28 + 2 * length bsb + 2 * Nat.max (length account) 9
    + Nat.max (length (toString amt)) 10
    + Nat.max (length name) 32 + Nat.max (length reference) 18.
Proof.
  unfold detail_record_of, join. cbn [String.concat append].
  lengths. lia.
Qed.

(** The three outcomes of [generate_detail_record]: the skip, a record and
    its amount, or the failed length assertion. *)
Lemma generate_detail_record_cases (row : Row) :
  (missing row /\ generate_detail_record row = Ok (None, None))
  \/ (valid row /\ exists record amt,
        generate_detail_record row = Ok (Some record, Some amt) /\ length record = 120)
  \/ (valid row /\ exists len,
        len <> 120 /\ generate_detail_record row = Throw (assertion_failed "Detail" len)).
Proof.
  destruct (existsb (fun col => isBlank (row col)) CSV_COLUMNS) eqn:E.
  - left. split; [now apply validation_fails |].
    unfold generate_detail_record. now rewrite E.
  - right. apply validation_passes in E.
    destruct (generate_detail_record_valid row E)
      as (bsb & account & name & reference & amount & _ & _ & _ & _ & _ & H).
    cbv zeta in H. rewrite H.
    destruct (Nat.eqb_spec
      (length (detail_record_of (trim bsb) (trim account) (trim name)
                 (trim reference) (amount_in_cents amount))) LINE_LENGTH) as [El|El].
    + left. split; [assumption |]. eauto.
    + right. split; [assumption |]. eauto.
Qed.

(** The amount field follows the type, the BSB, the account, the indicator
    and the transaction code. *)
Lemma detail_amount_field (bsb account name reference : string) (amt : number) :
  substring (4 + length bsb + Nat.max (length account) 9)
    (Nat.max (length (toString amt)) 10)
    (detail_record_of bsb account name reference amt)
  = padStart (toString amt) 10 "0".
Proof.
  unfold detail_record_of, join. cbn [String.concat append].
  match goal with
  | |- substring ?n ?m _ = ?f =>
      transitivity
        (substring n m
           (("1" ++ bsb ++ padStart account 9 " " ++ " 53") ++ f
              ++ (padEnd name 32 " " ++ padEnd reference 18 " " ++ bsb
                    ++ padStart account 9 " " ++ "Meya            00000000")))
  end.
  - f_equal. repeat rewrite append_assoc. reflexivity.
  - apply substring_at; lengths; lia.
Qed.

Lemma detail_amount_chars (bsb account name reference : string) (amt : number) :
  length bsb = 7 -> length account <= 9 -> length (toString amt) <= 10 ->
  chars 21 30 (detail_record_of bsb account name reference amt)
  = padStart (toString amt) 10 "0".
Proof.
  intros Hb Ha Hm. rewrite <- (detail_amount_field bsb account name reference amt).
  unfold chars. f_equal; lia.
Qed.



End Encoders.

(** ** The assembler *)

Section Assembler.

Lemma push_Ok (array : list string) (x : string) (array' : list string) :
  push array x = Ok array' ->
  array' = (array ++ [x])%list /\ (Z.of_nat (List.length array') <= 2 ^ 32 - 1)%Z.
Proof.
  unfold push.
  destruct (Z.leb_spec (2 ^ 32 - 1) (Z.of_nat (List.length array))) as [H|H];
    [discriminate |].
  intros [= <-]. split; [reflexivity |].
  rewrite length_app. simpl List.length. lia.
Qed.

Lemma push_small (array : list string) (x : string) :
  (Z.of_nat (List.length array) < 2 ^ 32 - 1)%Z -> push array x = Ok (array ++ [x])%list.
Proof.
  intros H. unfold push.
  destruct (Z.leb_spec (2 ^ 32 - 1) (Z.of_nat (List.length array))); [lia | reflexivity].
Qed.

Lemma accepted_details_cons (row : Row) (rest : list Row) :
  accepted_details (row :: rest) = (accepted row ++ accepted_details rest)%list.
Proof. reflexivity. Qed.

(** The loop appends the accepted records, in row order, and adds their
    amounts to the total. *)
Lemma for_rows_Ok (csvData : list Row) :
  forall aba_content total_amount aba_content' total_amount',
  for_rows csvData aba_content total_amount = Ok (aba_content', total_amount') ->
  aba_content' = (aba_content ++ map fst (accepted_details csvData))%list
  /\ total_amount' = fold_left add (map snd (accepted_details csvData)) total_amount
  /\ ((Z.of_nat (List.length aba_content) <= 2 ^ 32 - 1)%Z ->
      (Z.of_nat (List.length aba_content') <= 2 ^ 32 - 1)%Z).
Proof.
  induction csvData as [|row rest IH]; intros c t c' t' H.
  - injection H as <- <-. simpl. rewrite app_nil_r. auto.
  - rewrite accepted_details_cons. unfold accepted. cbn [for_rows] in H.
    destruct (generate_detail_record row) as [[[r|] [a|]]|m]; cbn [bind] in H;
      try discriminate; try (apply IH in H; exact H).
    destruct (push c r) as [c1|m] eqn:Ep; cbn [bind] in H; [|discriminate].
    apply push_Ok in Ep as [-> Hlen]. apply IH in H as (-> & -> & Hb).
    specialize (Hb Hlen). cbn [app map fst snd fold_left].
    rewrite <- app_assoc in *. repeat split; auto.
Qed.

(** A row that is skipped leaves the loop's state as it is. *)
Lemma for_rows_skip (before after : list Row) (row : Row) :
  generate_detail_record row = Ok (None, None) ->
  forall aba_content total_amount,
  for_rows (before ++ row :: after) aba_content total_amount
  = for_rows (before ++ after) aba_content total_amount.
Proof.
  intros Hs. induction before as [|r before IH]; intros c t; cbn [app for_rows].
  - rewrite Hs. reflexivity.
  - destruct (generate_detail_record r) as [[[x|] [a|]]|m]; cbn [bind]; auto.
    destruct (push c x); cbn [bind]; auto.
Qed.

Lemma for_rows_all_skipped (csvData : list Row) (aba_content : list string)
    (total_amount : number) :
  Forall missing csvData ->
  for_rows csvData aba_content total_amount = Ok (aba_content, total_amount).
Proof.
  induction 1 as [|row rest Hm _ IH]; [reflexivity |].
  cbn [for_rows]. unfold generate_detail_record.
  apply validation_fails in Hm. rewrite Hm. exact IH.
Qed.

(** The document, when it is assembled. *)
Lemma processCsvToAba_Ok (today : Date) (csvData : list Row) (doc : string) :
  processCsvToAba today csvData = Ok doc ->
  exists header trailer,
    generate_descriptive_record today = Ok header
    /\ generate_file_total_record (header :: map fst (accepted_details csvData))
         (running_total (map snd (accepted_details csvData))) = Ok trailer
    /\ doc = join LF (header :: map fst (accepted_details csvData) ++ [trailer]) ++ LF
    /\ (Z.of_nat (List.length (accepted_details csvData)) < 2 ^ 32)%Z.
Proof.
  unfold processCsvToAba. intros H.
  destruct (generate_descriptive_record today) as [header|m]; [|discriminate].
  cbn [bind] in H. rewrite push_small in H by (simpl; lia).
  cbn [bind app] in H.
  destruct (for_rows csvData [header] (Int 0)) as [[c t]|m] eqn:Ef; [|discriminate].
  cbn [bind] in H.
  apply for_rows_Ok in Ef as (-> & -> & Hb).
  destruct (generate_file_total_record _ _) as [trailer|m] eqn:Et; [|discriminate].
  cbn [bind] in H.
  destruct (push _ trailer) as [c'|m] eqn:Ep; [|discriminate].
  apply push_Ok in Ep as [-> _]. injection H as <-.
  exists header, trailer.
  split; [reflexivity |]. split; [exact Et |]. split; [reflexivity |].
  specialize (Hb ltac:(simpl; lia)). cbn [app List.length] in Hb.
  rewrite length_map in Hb. lia.
Qed.

(** Sums of integers stay exact below [2^53]. *)
Lemma fold_add_exact (zs : list Z) : forall t : Z,
  (Z.abs t + sum (map Z.abs zs) < 2 ^ 53)%Z ->
  fold_left add (map Int zs) (Int t) = Int (t + sum zs).
Proof.
  induction zs as [|z zs IH]; intros t H; cbn [map fold_left].
  - unfold sum; simpl. now rewrite Z.add_0_r.
  - change (sum (map Z.abs (z :: zs))) with (Z.abs z + sum (map Z.abs zs))%Z in H.
    change (sum (z :: zs)) with (z + sum zs)%Z.
    assert (0 <= sum (map Z.abs zs))%Z as Hpos.
    { clear. induction zs as [|a zs IH]; [unfold sum; simpl; lia |].
      change (sum (map Z.abs (a :: zs))) with (Z.abs a + sum (map Z.abs zs))%Z. lia. }
    cbn [add]. rewrite roundInt_small by lia.
    rewrite IH by lia. f_equal. lia.
Qed.

End Assembler.

(** ** What [generate_detail_record] returns *)

Section DetailRecord.

Lemma generate_detail_record_columns (row : Row) :
  valid row ->
  exists amount,
    row "Amount" = Str amount /\
    generate_detail_record row =
      let record := detail_record_of (column row "BSB") (column row "Account")
                      (column row "Name") (column row "Reference")
                      (amount_in_cents amount) in
      if (length record =? LINE_LENGTH)%nat
      then Ok (Some record, Some (amount_in_cents amount))
      else Throw (assertion_failed "Detail" (length record)).
Proof.
  intros Hv.
  destruct (generate_detail_record_valid row Hv)
    as (bsb & account & name & reference & amount & Eb & Ea & En & Er & Em & H).
  exists amount. split; [assumption |].
  unfold column. rewrite Eb, Ea, En, Er. exact H.
Qed.

(** A returned record is the layout of the row's columns, 120 characters
    long, and comes from a row that passes validation. *)
Lemma generate_detail_record_Ok (row : Row) (record : option string) (amt : option number) :
  generate_detail_record row = Ok (record, amt) ->
  (missing row /\ record = None /\ amt = None)
  \/ (valid row /\ exists amount,
        row "Amount" = Str amount
        /\ amt = Some (amount_in_cents amount)
        /\ record = Some (detail_record_of (column row "BSB") (column row "Account")
                            (column row "Name") (column row "Reference")
                            (amount_in_cents amount))
        /\ length (detail_record_of (column row "BSB") (column row "Account")
                     (column row "Name") (column row "Reference")
                     (amount_in_cents amount)) = 120).
Proof.
  intros H.
  destruct (existsb (fun col => isBlank (row col)) CSV_COLUMNS) eqn:E.
  - left. unfold generate_detail_record in H. rewrite E in H.
    injection H as <- <-. split; [now apply validation_fails | auto].
  - right. apply validation_passes in E. split; [assumption |].
    destruct (generate_detail_record_columns row E) as (amount & Em & Hg).
    exists amount. split; [assumption |].
    cbv zeta in Hg. rewrite Hg in H.
    destruct (Nat.eqb_spec
      (length (detail_record_of (column row "BSB") (column row "Account")
                 (column row "Name") (column row "Reference")
                 (amount_in_cents amount))) LINE_LENGTH) as [El|El]; [|discriminate].
    injection H as <- <-. auto.
Qed.

(** A row that fits the layout, with an amount of at most ten characters, is
    encoded, and its amount field is at characters 21 to 30. *)
Lemma generate_detail_record_fits (row : Row) (amount : string) :
  valid row -> fits row -> row "Amount" = Str amount ->
  length (toString (amount_in_cents amount)) <= 10 ->
  let record := detail_record_of (column row "BSB") (column row "Account")
                  (column row "Name") (column row "Reference")
                  (amount_in_cents amount) in
  generate_detail_record row = Ok (Some record, Some (amount_in_cents amount))
  /\ length record = 120
  /\ chars 21 30 record = padStart (toString (amount_in_cents amount)) 10 "0".
Proof.
  intros Hv (Fb & Fa & Fn & Fr) Em Hl record.
  assert (length record = 120) as El.
  { subst record. rewrite length_detail_record_of. lia. }
  split; [|split; [exact El |]].
  - destruct (generate_detail_record_columns row Hv) as (amount' & Em' & Hg).
    rewrite Em in Em'. injection Em' as <-.
    cbv zeta in Hg. fold record in Hg. rewrite Hg, El. reflexivity.
  - apply detail_amount_chars; assumption.
Qed.

Lemma valid_object (fields : list (string * string)) :
  existsb (fun col => isBlank (object fields col)) CSV_COLUMNS = false ->
  valid (object fields).
Proof. apply validation_passes. Qed.

End DetailRecord.

(** ** The trailer of an assembled document *)

Section Trailer.

Lemma abs_sum_le (zs : list Z) : (Z.abs (sum zs) <= sum (map Z.abs zs))%Z.
Proof.
  induction zs as [|z zs IH]; [unfold sum; simpl; lia |].
  change (sum (z :: zs)) with (z + sum zs)%Z.
  change (sum (map Z.abs (z :: zs))) with (Z.abs z + sum (map Z.abs zs))%Z. lia.
Qed.

(** The fields of the trailer of a document: both totals show the running
    total, the debit total is zero and the count is the number of accepted
    records. *)
Lemma document_trailer (today : Date) (csvData : list Row) (doc : string) :
  processCsvToAba today csvData = Ok doc ->
  exists header trailer,
    assembled today csvData doc header trailer
    /\ generate_file_total_record (header :: map fst (accepted_details csvData))
         (running_total (map snd (accepted_details csvData))) = Ok trailer
    /\ length trailer = 120
    /\ chars 21 30 trailer
       = padStart (toString (running_total (map snd (accepted_details csvData)))) 10 "0"
    /\ chars 31 40 trailer = chars 21 30 trailer
    /\ chars 41 50 trailer = "0000000000"
    /\ chars 75 80 trailer
       = padStart (decimal (Z.of_nat (List.length (accepted_details csvData)))) 6 "0".
Proof.
  intros H.
  destruct (processCsvToAba_Ok today csvData doc H) as (header & trailer & Hh & Ht & Hd & Hn).
  exists header, trailer. split; [split; assumption |]. split; [exact Ht |].
  destruct (trailer_inv _ _ _ Ht) as (Ln & Lc & Ll & Et).
  destruct (trailer_fields _ _ Ln Lc) as (F1 & F2 & F3 & F4).
  cbv zeta in F1, F2, F3, F4. rewrite <- Et in F1, F2, F3, F4.
  split; [exact Ll |]. rewrite F1, F2, F3, F4.
  repeat split.
  cbn [List.length]. rewrite length_map.
  replace (Z.of_nat (S (List.length (accepted_details csvData))) - 1)%Z
    with (Z.of_nat (List.length (accepted_details csvData))) by lia.
  rewrite toString_Int; [reflexivity |].
  split; [lia |]. apply Z.lt_trans with (2 ^ 32)%Z; [assumption | reflexivity].
Qed.

End Trailer.

(** ** The claims *)

(** C1 (as amended). In every assembled document the trailer's net total
    (characters 21-30) equals its credit total (31-40) and the debit total
    (41-50) is all zeros. Both show [String] of the running total, the
    double-precision sum of the accepted amounts in row order; they are the
    arithmetic sum of those amounts whenever the amounts are integers whose
    absolute values add up to less than [2^53] (and then read back as that sum
    when it is not negative). *)
Theorem trailer_totals_reconcile (today : Date) (csvData : list Row) (doc : string) :
  processCsvToAba today csvData = Ok doc ->
  exists header trailer,
    assembled today csvData doc header trailer
    /\ chars 21 30 trailer = chars 31 40 trailer
    /\ chars 41 50 trailer = "0000000000"
    /\ chars 21 30 trailer
       = padStart (toString (running_total (map snd (accepted_details csvData)))) 10 "0"
    /\ forall zs : list Z,
         map snd (accepted_details csvData) = map Int zs ->
         (sum (map Z.abs zs) < 2 ^ 53)%Z ->
         chars 21 30 trailer = padStart (toString (Int (sum zs))) 10 "0"
         /\ ((0 <= sum zs)%Z ->
             fieldValue (chars 21 30 trailer) = Some (sum zs)
             /\ fieldValue (chars 31 40 trailer) = Some (sum zs)).
Proof.
  intros H.
  destruct (document_trailer today csvData doc H)
    as (header & trailer & Ha & _ & _ & Fnet & Fcredit & Fdebit & _).
  exists header, trailer. repeat (split; [congruence |]).
  intros zs Hz Hb.
  assert (running_total (map snd (accepted_details csvData)) = Int (sum zs)) as Hr.
  { rewrite Hz. unfold running_total. now rewrite fold_add_exact by (simpl; lia). }
  rewrite Fcredit, Fnet, Hr. split; [reflexivity |].
  intros Hpos. pose proof (abs_sum_le zs).
  rewrite toString_Int by lia.
  split; apply fieldValue_padStart_decimal; assumption.
Qed.

Lemma trailer_totals_reconcile_witness :
  exists doc header trailer,
    processCsvToAba the_3rd_of_November_2026
      [smith "$12.00"; blank_row; smith "$1,234.56"] = Ok doc
    /\ assembled the_3rd_of_November_2026
         [smith "$12.00"; blank_row; smith "$1,234.56"] doc header trailer
    /\ chars 41 50 trailer = "0000000000"
    /\ fieldValue (chars 21 30 trailer) = Some 124656%Z
    /\ fieldValue (chars 31 40 trailer) = Some 124656%Z.
Proof.
  destruct (processCsvToAba the_3rd_of_November_2026
              [smith "$12.00"; blank_row; smith "$1,234.56"]) as [doc|m] eqn:E;
    [|vm_compute in E; discriminate].
  destruct (trailer_totals_reconcile _ _ _ E) as (header & trailer & Ha & _ & Hd & _ & Hz).
  exists doc, header, trailer. repeat (split; [assumption || reflexivity |]).
  apply (Hz [1200; 123456]%Z); [vm_compute; reflexivity | vm_compute; reflexivity |].
  vm_compute; discriminate.
Defined.

(** C1, as it is stated, fails on amounts that are not plain cent values: a
    row of 1e19 dollars and a row of 1 dollar are accepted with the amounts
    [10^21] and [100], and the trailer shows 1e+21, not their sum; and an
    amount that does not parse is accepted as NaN, which has no sum. *)
Lemma trailer_totals_counterexample :
  processCsvToAba the_3rd_of_November_2026 [smith "1e19"; smith "1"]
  = Ok (join LF
          [ "0                 01CBA       Meya                      000000PAYROLL     031126                                        ";
            "1000-000157108231 53000001e+21R SMITH                         TEST              000-000157108231Meya            00000000";
            "1000-000157108231 530000000100R SMITH                         TEST              000-000157108231Meya            00000000";
            "7999-999            000001e+21000001e+210000000000                        000002                                        " ]
          ++ LF)
  /\ map snd (accepted_details [smith "1e19"; smith "1"])
     = map Int [10 ^ 21; 100]%Z
  /\ sum [10 ^ 21; 100]%Z = 1000000000000000000100%Z
  /\ padStart (decimal 1000000000000000000100) 10 "0" <> "000001e+21"
  /\ processCsvToAba the_3rd_of_November_2026 [smith "abc"]
     = Ok (join LF
             [ "0                 01CBA       Meya                      000000PAYROLL     031126                                        ";
               "1000-000157108231 530000000NaNR SMITH                         TEST              000-000157108231Meya            00000000";
               "7999-999            0000000NaN0000000NaN0000000000                        000001                                        " ]
             ++ LF)
  /\ map snd (accepted_details [smith "abc"]) = [NaN].
Proof.
  repeat split; try (vm_compute; reflexivity). vm_compute; discriminate.
Qed.

(** C2. In every assembled document the trailer's record count (characters
    75-80) is the number of accepted detail records, the ones that stand
    between the header and the trailer, whatever the number of input rows. *)
Theorem trailer_count_is_accepted_records (today : Date) (csvData : list Row) (doc : string) :
  processCsvToAba today csvData = Ok doc ->
  exists header trailer,
    assembled today csvData doc header trailer
    /\ chars 75 80 trailer
       = padStart (decimal (Z.of_nat (List.length (accepted_details csvData)))) 6 "0"
    /\ fieldValue (chars 75 80 trailer)
       = Some (Z.of_nat (List.length (accepted_details csvData))).
Proof.
  intros H.
  destruct (document_trailer today csvData doc H)
    as (header & trailer & Ha & _ & _ & _ & _ & _ & Fcount).
  exists header, trailer. split; [assumption |]. split; [assumption |].
  rewrite Fcount. apply fieldValue_padStart_decimal. lia.
Qed.

Lemma trailer_count_is_accepted_records_witness :
  exists doc header trailer,
    processCsvToAba the_3rd_of_November_2026
      [blank_row; smith "$12.00"; blank_row] = Ok doc
    /\ assembled the_3rd_of_November_2026
         [blank_row; smith "$12.00"; blank_row] doc header trailer
    /\ List.length [blank_row; smith "$12.00"; blank_row] = 3
    /\ chars 75 80 trailer = "000001"
    /\ fieldValue (chars 75 80 trailer) = Some 1%Z.
Proof.
  destruct (processCsvToAba the_3rd_of_November_2026
              [blank_row; smith "$12.00"; blank_row]) as [doc|m] eqn:E;
    [|vm_compute in E; discriminate].
  destruct (trailer_count_is_accepted_records _ _ _ E) as (header & trailer & Ha & Hc & Hv).
  exists doc, header, trailer. repeat (split; [assumption || reflexivity |]).
  exact Hv.
Defined.

Section Records.

Lemma generate_descriptive_record_length (today : Date) (header : string) :
  generate_descriptive_record today = Ok header -> length header = 120.
Proof.
  unfold generate_descriptive_record.
  match goal with
  | |- context [(length ?t =? LINE_LENGTH)%nat] =>
      destruct (Nat.eqb_spec (length t) LINE_LENGTH) as [E|E]
  end; [|discriminate].
  intros [= <-]. exact E.
Qed.

Lemma accepted_details_length (csvData : list Row) :
  Forall (fun record => length record = 120) (map fst (accepted_details csvData)).
Proof.
  induction csvData as [|row rest IH]; [constructor |].
  rewrite accepted_details_cons, map_app. apply Forall_app. split; [|exact IH].
  unfold accepted.
  destruct (generate_detail_record row) as [[[r|] [a|]]|m] eqn:E; try constructor;
    [|constructor].
  apply generate_detail_record_Ok in E as [(_ & [=] & _)|(_ & amount & _ & _ & [= ->] & El)].
  exact El.
Qed.

Lemma missing_object (fields : list (string * string)) :
  existsb (fun col => isBlank (object fields col)) CSV_COLUMNS = true ->
  missing (object fields).
Proof. apply validation_fails. Qed.

Lemma missing_skipped (row : Row) :
  missing row -> generate_detail_record row = Ok (None, None).
Proof.
  intros H. apply validation_fails in H.
  unfold generate_detail_record. now rewrite H.
Qed.


End Records.

(** C3. A row in which one of the five fields is missing, blank or white
    space only is skipped: [generate_detail_record] returns an absent record
    and an absent amount, and the document is the one assembled without the
    row, so that neither the total nor the count sees it. *)
Theorem missing_row_is_skipped (row : Row) :
  missing row ->
  generate_detail_record row = Ok (None, None)
  /\ accepted row = []
  /\ forall (today : Date) (before after : list Row),
       processCsvToAba today (before ++ row :: after)
       = processCsvToAba today (before ++ after).
Proof.
  intros H. apply missing_skipped in H.
  split; [exact H |]. split; [unfold accepted; now rewrite H |].
  intros today before after. unfold processCsvToAba.
  destruct (generate_descriptive_record today) as [header|m]; [|reflexivity].
  cbn [bind]. destruct (push [] header) as [c|m]; [|reflexivity].
  cbn [bind]. now rewrite (for_rows_skip before after row H).
Qed.

Lemma missing_row_is_skipped_witness :
  missing blank_row
  /\ generate_detail_record blank_row = Ok (None, None)
  /\ processCsvToAba the_3rd_of_November_2026 [smith "$12.00"; blank_row]
     = processCsvToAba the_3rd_of_November_2026 [smith "$12.00"].
Proof.
  assert (missing blank_row) as H by (apply missing_object; reflexivity).
  split; [exact H |].
  destruct (missing_row_is_skipped blank_row H) as (Hs & _ & Hd).
  split; [exact Hs |].
  exact (Hd the_3rd_of_November_2026 [smith "$12.00"] []).
Defined.

(** C4 (as amended). On a row that passes validation [generate_detail_record]
    either returns a record of exactly 120 characters or throws the failed
    length assertion; it returns the record when the row fits the layout
    (a BSB of 7 characters, an account of at most 9, a name of at most 32, a
    reference of at most 18) and its amount prints in at most 10 characters. *)
Theorem detail_record_length (row : Row) :
  valid row ->
  (forall record amt,
     generate_detail_record row = Ok (record, amt) ->
     exists r, record = Some r /\ length r = 120)
  /\ ((exists r a, generate_detail_record row = Ok (Some r, Some a) /\ length r = 120)
      \/ (exists len, len <> 120
            /\ generate_detail_record row = Throw (assertion_failed "Detail" len)))
  /\ (fits row -> length (toString (cents row)) <= 10 ->
      exists r, generate_detail_record row = Ok (Some r, Some (cents row))
                /\ length r = 120).
Proof.
  intros Hv. split; [|split].
  - intros record amt H.
    apply generate_detail_record_Ok in H as [(Hm & _)|(_ & amount & _ & _ & -> & El)].
    + now apply valid_not_missing in Hv.
    + eauto.
  - destruct (generate_detail_record_cases row) as [(Hm & _)|[(_ & H)|(_ & H)]].
    + now apply valid_not_missing in Hv.
    + left. exact H.
    + right. exact H.
  - intros Hf Hl.
    destruct (generate_detail_record_columns row Hv) as (amount & Em & _).
    unfold cents in *. rewrite Em in *.
    destruct (generate_detail_record_fits row amount Hv Hf Em Hl) as (Hg & El & _).
    eauto.
Qed.

Lemma detail_record_length_witness :
  valid (smith "$12.00")
  /\ exists r, generate_detail_record (smith "$12.00") = Ok (Some r, Some (Int 1200))
               /\ length r = 120.
Proof.
  assert (valid (smith "$12.00")) as Hv by (apply valid_object; reflexivity).
  split; [exact Hv |].
  destruct (detail_record_length (smith "$12.00") Hv) as (_ & _ & H).
  apply H.
  - split; [reflexivity |]. repeat split; apply Nat.leb_le; reflexivity.
  - apply Nat.leb_le. vm_compute. reflexivity.
Defined.

(** C4, as it is stated, fails on a row that passes validation with a payee
    name of 33 characters: no record is returned, the length assertion is
    thrown. *)
Lemma detail_record_length_counterexample :
  valid long_name_row
  /\ generate_detail_record long_name_row
     = Throw "Assertion failed: Detail record length is 121, expected 120"
  /\ ~ (exists r a, generate_detail_record long_name_row = Ok (Some r, a)
                    /\ length r = 120).
Proof.
  assert (generate_detail_record long_name_row
          = Throw "Assertion failed: Detail record length is 121, expected 120") as E
    by (vm_compute; reflexivity).
  split; [apply valid_object; reflexivity |]. split; [exact E |].
  intros (r & a & H & _). rewrite E in H. discriminate.
Qed.

(** C6 (as amended). The [Amount] "$1,234.56" is 123456 cents. Every record
    returned for a row with this [Amount] comes with the amount 123456 and
    holds "0000123456" as its amount field, the ten characters after the
    type, BSB, account, indicator and transaction code; a row that passes
    validation and fits the layout is encoded, and the field is at characters
    21-30 of its record. *)
Theorem amount_1234_56 (row : Row) :
  row "Amount" = Str "$1,234.56" ->
  amount_in_cents "$1,234.56" = Int 123456
  /\ (forall record amt,
        generate_detail_record row = Ok (Some record, Some amt) ->
        amt = Int 123456
        /\ substring
             (4 + length (column row "BSB") + Nat.max (length (column row "Account")) 9)
             10 record
           = "0000123456")
  /\ (valid row -> fits row ->
      exists record,
        generate_detail_record row = Ok (Some record, Some (Int 123456))
        /\ length record = 120
        /\ chars 21 30 record = "0000123456").
Proof.
  intros Em.
  assert (amount_in_cents "$1,234.56" = Int 123456) as Ec by (vm_compute; reflexivity).
  split; [exact Ec |]. split.
  - intros record amt H.
    apply generate_detail_record_Ok in H
      as [(_ & [=] & _)|(_ & amount & Em' & [= ->] & [= ->] & _)].
    rewrite Em in Em'. injection Em' as <-. split; [exact Ec |].
    rewrite Ec.
    exact (detail_amount_field (column row "BSB") (column row "Account")
             (column row "Name") (column row "Reference") (Int 123456)).
  - intros Hv Hf.
    destruct (generate_detail_record_fits row "$1,234.56" Hv Hf Em) as (Hg & El & Hc).
    + rewrite Ec. apply Nat.leb_le. vm_compute. reflexivity.
    + cbv zeta in Hg, El, Hc. rewrite Ec in Hg, El, Hc.
      eexists. split; [exact Hg |]. split; [exact El |].
      rewrite Hc. vm_compute. reflexivity.
Qed.

Lemma amount_1234_56_witness :
  generate_detail_record (smith "$1,234.56")
  = Ok (Some "1000-000157108231 530000123456R SMITH                         TEST              000-000157108231Meya            00000000",
        Some (Int 123456))
  /\ exists record,
       generate_detail_record (smith "$1,234.56") = Ok (Some record, Some (Int 123456))
       /\ length record = 120
       /\ chars 21 30 record = "0000123456".
Proof.
  split; [vm_compute; reflexivity |].
  destruct (amount_1234_56 (smith "$1,234.56")) as (_ & _ & H); [reflexivity |].
  apply H.
  - apply valid_object; reflexivity.
  - split; [reflexivity |]. repeat split; apply Nat.leb_le; reflexivity.
Defined.

(** C6, as it is stated, fails on rows with this [Amount]: with a BSB of six
    characters and a name of 34 the record passes the length check with the
    amount field one place to the left, and characters 21-30 read
    "0001234569", the last digit being the first character of the name; with
    a name of 33 characters the length assertion is thrown and there is no
    record; and a row whose name is blank is skipped. *)
Lemma amount_1234_56_counterexample :
  shifted_1234_56 "Amount" = Str "$1,234.56"
  /\ generate_detail_record shifted_1234_56
     = Ok (Some "100-000157108231 5300001234569 LIVES PET SUPPLIES PTY LTD PERTHTEST              00-000157108231Meya            00000000",
           Some (Int 123456))
  /\ chars 21 30
       "100-000157108231 5300001234569 LIVES PET SUPPLIES PTY LTD PERTHTEST              00-000157108231Meya            00000000"
     = "0001234569"
  /\ long_name_1234_56 "Amount" = Str "$1,234.56"
  /\ generate_detail_record long_name_1234_56
     = Throw "Assertion failed: Detail record length is 121, expected 120"
  /\ generate_detail_record
       (object [ ("BSB", "000-000"); ("Reference", "TEST"); ("Name", " ");
                 ("Account", "157108231"); ("Amount", "$1,234.56") ])
     = Ok (None, None).
Proof. repeat split; vm_compute; reflexivity. Qed.

(** C7. The assembled document is the header, then the detail records of
    the accepted rows in row order, then the trailer, each of 120 characters,
    joined by line feeds and ended by one; and a table none of whose rows is
    accepted gives the header and the trailer only, with the count 000000 and
    both totals 0000000000. *)
Theorem document_layout (today : Date) (csvData : list Row) (header : string) :
  generate_descriptive_record today = Ok header ->
  (forall doc,
     processCsvToAba today csvData = Ok doc ->
     exists trailer,
       generate_file_total_record (header :: map fst (accepted_details csvData))
         (running_total (map snd (accepted_details csvData))) = Ok trailer
       /\ doc = join LF (header :: map fst (accepted_details csvData) ++ [trailer]) ++ LF
       /\ length header = 120 /\ length trailer = 120
       /\ Forall (fun record => length record = 120)
            (map fst (accepted_details csvData)))
  /\ (Forall missing csvData ->
      processCsvToAba today csvData = Ok (join LF [header; empty_trailer] ++ LF))
  /\ chars 75 80 empty_trailer = "000000"
  /\ chars 21 30 empty_trailer = "0000000000"
  /\ chars 31 40 empty_trailer = "0000000000".
Proof.
  intros Hh. split; [|split; [|repeat split]].
  - intros doc H.
    destruct (document_trailer today csvData doc H)
      as (h & trailer & (Hh' & Hd) & Ht & Ll & _).
    rewrite Hh in Hh'. injection Hh' as <-.
    exists trailer. repeat split; try assumption.
    + now apply generate_descriptive_record_length with today.
    + apply accepted_details_length.
  - intros Hm. unfold processCsvToAba. rewrite Hh. cbn [bind].
    rewrite push_small by (simpl; lia). cbn [bind app].
    rewrite for_rows_all_skipped by assumption. cbn [bind].
    change (generate_file_total_record [header] (Int 0)) with (Ok empty_trailer).
    cbn [bind]. rewrite push_small by (simpl; lia). reflexivity.
Qed.

Lemma document_layout_witness :
  generate_descriptive_record the_3rd_of_November_2026
  = Ok "0                 01CBA       Meya                      000000PAYROLL     031126                                        "
  /\ processCsvToAba the_3rd_of_November_2026
       [smith "$12.00"; blank_row; smith "$1,234.56"]
     = Ok (join LF
             [ "0                 01CBA       Meya                      000000PAYROLL     031126                                        ";
               "1000-000157108231 530000001200R SMITH                         TEST              000-000157108231Meya            00000000";
               "1000-000157108231 530000123456R SMITH                         TEST              000-000157108231Meya            00000000";
               "7999-999            000012465600001246560000000000                        000002                                        " ]
           ++ LF)
  /\ processCsvToAba the_3rd_of_November_2026 [blank_row; blank_row]
     = Ok (join LF
             [ "0                 01CBA       Meya                      000000PAYROLL     031126                                        ";
               empty_trailer ] ++ LF)
  /\ processCsvToAba the_3rd_of_November_2026 []
     = Ok (join LF
             [ "0                 01CBA       Meya                      000000PAYROLL     031126                                        ";
               empty_trailer ] ++ LF).
Proof.
  split; [reflexivity |]. split; [|split].
  - destruct (document_layout the_3rd_of_November_2026
                [smith "$12.00"; blank_row; smith "$1,234.56"]
                "0                 01CBA       Meya                      000000PAYROLL     031126                                        ")
      as (H & _); [reflexivity |].
    destruct (processCsvToAba the_3rd_of_November_2026
                [smith "$12.00"; blank_row; smith "$1,234.56"]) as [doc|msg] eqn:E;
      [|vm_compute in E; discriminate].
    destruct (H doc eq_refl) as (trailer & Ht & -> & _).
    vm_compute in Ht. injection Ht as <-. vm_compute. reflexivity.
  - apply (document_layout the_3rd_of_November_2026 [blank_row; blank_row]);
      [reflexivity |].
    repeat constructor; apply missing_object; reflexivity.
  - apply (document_layout the_3rd_of_November_2026 []); [reflexivity | constructor].
Defined.







Section NotANumber.

Lemma fold_add_NaN (amounts : list number) : fold_left add amounts NaN = NaN.
Proof. induction amounts as [|a l IH]; [reflexivity | exact IH]. Qed.

(** Once NaN is among the amounts, the running total is NaN. *)
Lemma running_total_NaN (before after : list number) :
  running_total (before ++ NaN :: after) = NaN.
Proof.
  unfold running_total. rewrite fold_left_app. cbn [fold_left].
  rewrite add_NaN_r. apply fold_add_NaN.
Qed.

Lemma accepted_details_app (l1 l2 : list Row) :
  accepted_details (l1 ++ l2) = (accepted_details l1 ++ accepted_details l2)%list.
Proof. apply flat_map_app. Qed.

End NotANumber.

(** C10. The row of the format's example with the [Amount] "abc" passes
    validation and is neither skipped nor refused: it is returned as a record
    of 120 characters whose amount field is "0000000NaN", with the amount NaN.
    NaN absorbs every sum, so a document assembled from a table with this row
    shows "0000000NaN" in both totals of its trailer, which no longer read as
    a number. *)
Theorem non_numeric_amount_is_accepted :
  valid (smith "abc")
  /\ generate_detail_record (smith "abc")
     = Ok (Some "1000-000157108231 530000000NaNR SMITH                         TEST              000-000157108231Meya            00000000",
           Some NaN)
  /\ length "1000-000157108231 530000000NaNR SMITH                         TEST              000-000157108231Meya            00000000"
     = 120
  /\ chars 21 30
       "1000-000157108231 530000000NaNR SMITH                         TEST              000-000157108231Meya            00000000"
     = "0000000NaN"
  /\ (forall total, add total NaN = NaN)
  /\ (forall today before after doc,
        processCsvToAba today (before ++ smith "abc" :: after) = Ok doc ->
        exists header trailer,
          assembled today (before ++ smith "abc" :: after) doc header trailer
          /\ running_total (map snd (accepted_details (before ++ smith "abc" :: after)))
             = NaN
          /\ chars 21 30 trailer = "0000000NaN"
          /\ chars 31 40 trailer = "0000000NaN"
          /\ fieldValue (chars 21 30 trailer) = None).
Proof.
  split; [apply valid_object; reflexivity |].
  split; [vm_compute; reflexivity |].
  split; [reflexivity |]. split; [reflexivity |].
  split; [exact add_NaN_r |].
  intros today before after doc H.
  destruct (document_trailer today _ doc H)
    as (header & trailer & Ha & _ & _ & Fnet & Fcredit & _).
  assert (running_total (map snd (accepted_details (before ++ smith "abc" :: after)))
          = NaN) as Hr.
  { rewrite accepted_details_app, accepted_details_cons, map_app, map_app.
    assert (map snd (accepted (smith "abc")) = [NaN]) as -> by (vm_compute; reflexivity).
    apply running_total_NaN. }
  exists header, trailer. rewrite Fcredit, Fnet, Hr.
  split; [exact Ha |]. repeat split.
Qed.

Lemma non_numeric_amount_is_accepted_witness :
  processCsvToAba the_3rd_of_November_2026 [smith "$12.00"; smith "abc"]
  = Ok (join LF
          [ "0                 01CBA       Meya                      000000PAYROLL     031126                                        ";
            "1000-000157108231 530000001200R SMITH                         TEST              000-000157108231Meya            00000000";
            "1000-000157108231 530000000NaNR SMITH                         TEST              000-000157108231Meya            00000000";
            "7999-999            0000000NaN0000000NaN0000000000                        000002                                        " ]
          ++ LF)
  /\ exists doc header trailer,
       assembled the_3rd_of_November_2026 ([smith "$12.00"] ++ smith "abc" :: [])
         doc header trailer
       /\ chars 21 30 trailer = "0000000NaN"
       /\ chars 31 40 trailer = "0000000NaN".
Proof.
  split; [vm_compute; reflexivity |].
  destruct (processCsvToAba the_3rd_of_November_2026 ([smith "$12.00"] ++ smith "abc" :: []))
    as [doc|m] eqn:E; [|vm_compute in E; discriminate].
  destruct non_numeric_amount_is_accepted as (_ & _ & _ & _ & _ & H).
  destruct (H _ _ _ _ E) as (header & trailer & Ha & _ & Hn & Hc & _).
  exists doc, header, trailer. auto.
Defined.

(** C5 (what the code does). Of the commas of an amount only the first is
    removed, since [replace] with a string pattern replaces one occurrence:
    "$1,234,567.89" becomes "1234,567.89", of which [parseFloat] reads 1234,
    and the row is encoded with 123400 cents. The normalization of the
    specification, which strips every comma, gives 123456789. *)
Theorem comma_grouped_amount :
  amountStr "$1,234,567.89" = "1234,567.89"
  /\ amount_in_cents "$1,234,567.89" = Int 123400
  /\ spec_minor_units "$1,234,567.89" = Int 123456789
  /\ generate_detail_record (smith "$1,234,567.89")
     = Ok (Some "1000-000157108231 530000123400R SMITH                         TEST              000-000157108231Meya            00000000",
           Some (Int 123400)).
Proof. repeat split; vm_compute; reflexivity. Qed.

(** The end-to-end scenario of the specification: one row and a blank row
    give three lines, with the count 000001 and both totals 0000001200. *)
Example end_to_end_scenario :
  processCsvToAba the_3rd_of_November_2026 [smith "$12.00"; blank_row]
  = Ok (join LF
          [ "0                 01CBA       Meya                      000000PAYROLL     031126                                        ";
            "1000-000157108231 530000001200R SMITH                         TEST              000-000157108231Meya            00000000";
            "7999-999            000000120000000012000000000000                        000001                                        " ]
          ++ LF).
Proof. vm_compute. reflexivity. Qed.

(** ** The layout of the header *)

Section Header.
Local Open Scope Z_scope.

Lemma decimal_aux_append (f : nat) : forall (m : Z) (acc : string),
  decimal_aux f m acc = (decimal_aux f m "" ++ acc)%string.
Proof.
  induction f as [|f IH]; intros m acc; simpl; [reflexivity |].
  destruct (m <? 10); [reflexivity |].
  rewrite IH, (IH _ (String _ "")), append_assoc. reflexivity.
Qed.

(** Enough fuel is as good as more. *)
Lemma decimal_aux_fuel (f : nat) : forall (g : nat) (m : Z) (acc : string),
  0 <= m < 2 ^ Z.of_nat (S f) -> m < 2 ^ Z.of_nat (S g) ->
  decimal_aux (S f) m acc = decimal_aux (S g) m acc.
Proof.
  induction f as [|f IH]; intros g m acc Hf Hg; cbn [decimal_aux].
  - destruct (Z.ltb_spec m 10) as [_|Hge]; [reflexivity | simpl in Hf; lia].
  - destruct (Z.ltb_spec m 10) as [_|Hge]; [reflexivity |].
    destruct g as [|g]; [simpl in Hg; lia |].
    rewrite (Nat2Z.inj_succ (S f)), Z.pow_succ_r in Hf by lia.
    rewrite (Nat2Z.inj_succ (S g)), Z.pow_succ_r in Hg by lia.
    apply IH.
    + split; [apply Z.div_pos; lia | apply Z.div_lt_upper_bound; lia].
    + apply Z.div_lt_upper_bound; lia.
Qed.

Lemma log2_fuel (m : Z) : 0 <= m -> m < 2 ^ Z.of_nat (S (Z.to_nat (Z.log2 m))).
Proof.
  intros Hm. destruct (Z.eq_dec m 0) as [->|Hz]; [simpl; lia |].
  rewrite Nat2Z.inj_succ, Z2Nat.id by apply Z.log2_nonneg.
  apply Z.log2_spec; lia.
Qed.

(** The digits of a number of two digits or more are the digits of its
    tenth, then its last digit. *)
Lemma decimal_step (n : Z) :
  10 <= n -> decimal n = (decimal (n / 10) ++ String (digitChar (n mod 10)) "")%string.
Proof.
  intros Hn. unfold decimal at 1. cbn [decimal_aux].
  destruct (Z.ltb_spec n 10) as [Hlt|_]; [lia |].
  rewrite decimal_aux_append. f_equal. unfold decimal.
  pose proof (log2_fuel n ltac:(lia)) as Hf.
  destruct (Z.to_nat (Z.log2 n)) as [|f] eqn:E.
  { simpl in Hf. lia. }
  apply decimal_aux_fuel.
  - rewrite (Nat2Z.inj_succ (S f)), Z.pow_succ_r in Hf by lia.
    split; [apply Z.div_pos; lia | apply Z.div_lt_upper_bound; lia].
  - apply log2_fuel. apply Z.div_pos; lia.
Qed.

Lemma decimal_digit (n : Z) : 0 <= n < 10 -> decimal n = String (digitChar n) "".
Proof.
  intros Hn. unfold decimal. cbn [decimal_aux].
  destruct (Z.ltb_spec n 10); [|lia]. now rewrite Z.mod_small by lia.
Qed.

(** The last two digits. *)
Lemma decimal_last_two (n : Z) :
  10 <= n ->
  exists p, decimal n
            = (p ++ String (digitChar ((n / 10) mod 10)) (String (digitChar (n mod 10)) ""))%string.
Proof.
  intros Hn. rewrite decimal_step by assumption.
  destruct (Z_lt_le_dec (n / 10) 10) as [Hs|Hl].
  - exists ""%string. rewrite decimal_digit.
    + rewrite (Z.mod_small (n / 10)); [reflexivity |].
      split; [apply Z.div_pos; lia | assumption].
    + split; [apply Z.div_pos; lia | assumption].
  - exists (decimal (n / 10 / 10)). rewrite (decimal_step (n / 10)) by assumption.
    now rewrite append_assoc.
Qed.

Lemma slice_last_two (p : string) (a b : ascii) :
  slice (p ++ String a (String b "")) (-2) = String a (String b "").
Proof.
  unfold slice. rewrite length_append. cbn [length].
  replace (-2 <? 0) with true by reflexivity.
  replace (Z.to_nat (Z.max (Z.of_nat (length p + 2) + -2) 0)) with (length p) by lia.
  replace (Z.to_nat (Z.of_nat (length p + 2) - Z.max (Z.of_nat (length p + 2) + -2) 0))
    with (length (String a (String b ""))) by (simpl; lia).
  rewrite <- (append_empty_r (String a (String b ""))) at 1.
  apply (substring_field p (String a (String b "")) "").
Qed.

Lemma fieldValue_two_digits (a b : Z) :
  0 <= a < 10 -> 0 <= b < 10 ->
  fieldValue (String (digitChar a) (String (digitChar b) "")) = Some (10 * a + b).
Proof.
  intros Ha Hb. unfold fieldValue. cbn [readDigits].
  destruct (digitChar_digit a Ha) as [-> ->].
  destruct (digitChar_digit b Hb) as [-> ->].
  f_equal; lia.
Qed.

End Header.

(** X1. On a calendar date, of a year from 10 to 275760, the header is
    returned with every field in its place: the type 0, the reel 01, the
    institution CBA, the user name and number, the description, and at
    characters 75-80 the date as DDMMYY: the day, the month counted from 1,
    and the year modulo 100, two digits each. *)
Theorem header_layout (today : Date) :
  calendar today ->
  exists header,
    generate_descriptive_record today = Ok header
    /\ chars 1 74 header
       = "0                 01CBA       Meya                      000000PAYROLL     "
    /\ fieldValue (chars 75 76 header) = Some (getDate today)
    /\ fieldValue (chars 77 78 header) = Some (getMonth today + 1)%Z
    /\ fieldValue (chars 79 80 header) = Some (getFullYear today mod 100)%Z
    /\ chars 81 120 header = "                                        ".
Proof.
  intros (Hd & Hm & Hy).
  set (day := padStart (toString (Int (getDate today))) 2 ZERO).
  set (month := padStart (toString (add (Int (getMonth today)) (Int 1))) 2 ZERO).
  set (year := slice (toString (Int (getFullYear today))) (-2)).
  assert (length day = 2 /\ fieldValue day = Some (getDate today)) as (Ld & Vd).
  { subst day. unfold ZERO. rewrite length_padStart by discriminate.
    rewrite toString_Int by lia. split.
    - pose proof (length_decimal_le 2 (getDate today)). lia.
    - apply fieldValue_padStart_decimal. lia. }
  assert (length month = 2 /\ fieldValue month = Some (getMonth today + 1)%Z) as (Lm & Vm).
  { subst month. unfold ZERO. rewrite length_padStart by discriminate.
    cbn [add]. rewrite roundInt_small by lia. rewrite toString_Int by lia. split.
    - pose proof (length_decimal_le 2 (getMonth today + 1)). lia.
    - apply fieldValue_padStart_decimal. lia. }
  assert (length year = 2 /\ fieldValue year = Some (getFullYear today mod 100)%Z)
    as (Ly & Vy).
  { subst year. rewrite toString_Int by lia.
    destruct (decimal_last_two (getFullYear today)) as (p & ->); [lia |].
    rewrite slice_last_two. split; [reflexivity |].
    rewrite fieldValue_two_digits by (apply Z.mod_pos_bound; lia).
    f_equal. pose proof (Z.div_mod (getFullYear today) 10).
    pose proof (Z.div_mod (getFullYear today / 10) 10).
    pose proof (Z.div_mod (getFullYear today) 100).
    pose proof (Z.mod_pos_bound (getFullYear today) 10).
    pose proof (Z.mod_pos_bound (getFullYear today / 10) 10).
    pose proof (Z.mod_pos_bound (getFullYear today) 100).
    rewrite <- (Z.div_div _ 10 10) in * by lia. lia. }
  set (pre := "0                 01CBA       Meya                      000000PAYROLL     ").
  set (blank := "                                        ").
  exists (pre ++ day ++ month ++ year ++ blank).
  split.
  - unfold generate_descriptive_record. fold day month year.
    set (t := join _ _).
    assert (t = pre ++ day ++ month ++ year ++ blank) as Et.
    { subst t pre blank. clearbody day month year. cbn.
      repeat rewrite append_assoc. reflexivity. }
    assert (length t = LINE_LENGTH) as El
      by (rewrite Et; subst pre blank; lengths; unfold LINE_LENGTH; lia).
    rewrite El, Nat.eqb_refl, Et. reflexivity.
  - clearbody day month year. subst pre blank. repeat split.
    + field_at "" (day ++ month ++ year ++ "                                        ").
    + rewrite <- Vd. f_equal.
      field_at "0                 01CBA       Meya                      000000PAYROLL     "
        (month ++ year ++ "                                        ").
    + rewrite <- Vm. f_equal.
      field_at ("0                 01CBA       Meya                      000000PAYROLL     " ++ day)
        (year ++ "                                        ").
    + rewrite <- Vy. f_equal.
      field_at ("0                 01CBA       Meya                      000000PAYROLL     " ++ day ++ month)
        "                                        ".
    + field_at ("0                 01CBA       Meya                      000000PAYROLL     " ++ day ++ month ++ year) "".
Qed.

Lemma header_layout_witness :
  calendar the_3rd_of_November_2026
  /\ exists header,
       generate_descriptive_record the_3rd_of_November_2026 = Ok header
       /\ fieldValue (chars 75 76 header) = Some 3%Z
       /\ fieldValue (chars 77 78 header) = Some 11%Z
       /\ fieldValue (chars 79 80 header) = Some 26%Z.
Proof.
  assert (calendar the_3rd_of_November_2026) as Hc by (unfold calendar; simpl; lia).
  split; [exact Hc |].
  destruct (header_layout the_3rd_of_November_2026 Hc)
    as (header & Hh & _ & Hd & Hm & Hy & _).
  exists header. repeat split; assumption.
Defined.

(** ** Trimming and padding *)

Section Trim.

Lemma trimStart_headed (s : string) : headed (trimStart s).
Proof.
  induction s as [|c s IH]; simpl; [exact I |].
  destruct (isWhiteSpace c) eqn:E; [exact IH | exact E].
Qed.

Lemma trimStart_fixed (s : string) : headed s -> trimStart s = s.
Proof. destruct s as [|c s]; simpl; [reflexivity | now intros ->]. Qed.

Lemma trimEnd_headed (s : string) : headed s -> headed (trimEnd s).
Proof.
  destruct s as [|c s]; simpl; [auto |]. intros E.
  destruct (trimEnd s); [rewrite E |]; exact E.
Qed.

Lemma trimEnd_cons (c : ascii) (s : string) :
  trimEnd (String c s)
  = match trimEnd s with
    | EmptyString => if isWhiteSpace c then EmptyString else String c EmptyString
    | t => String c t
    end.
Proof. reflexivity. Qed.

Lemma trimEnd_idempotent (s : string) : trimEnd (trimEnd s) = trimEnd s.
Proof.
  induction s as [|c s IH]; [reflexivity |].
  rewrite trimEnd_cons.
  destruct (trimEnd s) as [|d t] eqn:E.
  - destruct (isWhiteSpace c) eqn:W; [reflexivity |].
    rewrite trimEnd_cons. simpl. now rewrite W.
  - rewrite trimEnd_cons, IH. reflexivity.
Qed.

Lemma trim_headed (s : string) : headed (trim s).
Proof. apply trimEnd_headed, trimStart_headed. Qed.

Lemma trimEnd_trim (s : string) : trimEnd (trim s) = trim s.
Proof. apply trimEnd_idempotent. Qed.

(** Trimming twice is trimming once. *)
Lemma trim_idempotent (s : string) : trim (trim s) = trim s.
Proof.
  unfold trim at 1. rewrite trimStart_fixed by apply trim_headed.
  apply trimEnd_trim.
Qed.

Lemma trimStart_spaces (k : nat) (s : string) :
  trimStart (repeat " " k ++ s) = trimStart s.
Proof. induction k as [|k IH]; simpl; [reflexivity | exact IH]. Qed.

Lemma trimEnd_spaces (k : nat) (s : string) :
  trimEnd (s ++ repeat " " k) = trimEnd s.
Proof.
  induction s as [|c s IH]; simpl.
  - induction k as [|k IHk]; simpl; [reflexivity |]. now rewrite IHk.
  - now rewrite IH.
Qed.

Lemma padEnd_char (s : string) (n : nat) (c : ascii) :
  padEnd s n (String c "") = s ++ repeat (String c "") (n - length s).
Proof.
  unfold padEnd. destruct (Nat.leb_spec n (length s)) as [H|H].
  - replace (n - length s) with 0 by lia. simpl. now rewrite append_empty_r.
  - cbn [length Nat.eqb]. f_equal.
    set (k := n - length s).
    rewrite <- (substring_0_length (repeat (String c "") k)) at 2.
    rewrite length_repeat. simpl. now rewrite Nat.mul_1_r.
Qed.

(** A trimmed text is read back from its padded field. *)
Lemma trim_padStart (s : string) (n : nat) : trim (padStart (trim s) n " ") = trim s.
Proof.
  rewrite padStart_char. unfold trim at 1. rewrite trimStart_spaces.
  rewrite trimStart_fixed by apply trim_headed. apply trimEnd_trim.
Qed.

Lemma trim_padEnd (s : string) (n : nat) : trim (padEnd (trim s) n " ") = trim s.
Proof.
  rewrite padEnd_char. unfold trim at 1.
  destruct (trim s) as [|c t] eqn:E.
  - simpl. clear. induction (n - 0) as [|k IH]; simpl; [reflexivity | exact IH].
  - pose proof (trim_headed s) as H. rewrite E in H.
    rewrite trimStart_fixed by exact H.
    rewrite trimEnd_spaces, <- E. apply trimEnd_trim.
Qed.

Lemma column_trimmed (row : Row) (col : string) : trim (column row col) = column row col.
Proof. unfold column. destruct (row col); try reflexivity. apply trim_idempotent. Qed.

Lemma column_padStart (row : Row) (col : string) (n : nat) :
  trim (padStart (column row col) n " ") = column row col.
Proof.
  unfold column. destruct (row col) as [| |s]; try apply trim_padStart.
  - change EmptyString with (trim ""). apply trim_padStart.
  - change EmptyString with (trim ""). apply trim_padStart.
Qed.

Lemma column_padEnd (row : Row) (col : string) (n : nat) :
  trim (padEnd (column row col) n " ") = column row col.
Proof.
  unfold column. destruct (row col) as [| |s]; try apply trim_padEnd.
  - change EmptyString with (trim ""). apply trim_padEnd.
  - change EmptyString with (trim ""). apply trim_padEnd.
Qed.

End Trim.

(** ** The layout of a detail record and of the trailer *)

(** X2. In the record returned for a row that fits the layout every field
    is in its place: the type 1; the BSB at characters 2-8 and again at
    81-87; the account right-justified at 9-17, blanks first, and again at
    88-96; the blank indicator and the transaction code 53; the amount
    right-justified at 21-30, zeros first; the name left-justified at 31-62
    and the reference at 63-80, blanks last; the remitter and eight zeros of
    tax. Trimming the account, name and reference fields gives back the
    trimmed columns of the row. *)
Theorem detail_record_layout (row : Row) (r : string) (a : number) :
  generate_detail_record row = Ok (Some r, Some a) ->
  fits row ->
  chars 1 1 r = "1"
  /\ chars 2 8 r = column row "BSB"
  /\ chars 9 17 r
     = repeat " " (9 - length (column row "Account")) ++ column row "Account"
  /\ chars 18 20 r = " 53"
  /\ chars 21 30 r = repeat "0" (10 - length (toString a)) ++ toString a
  /\ chars 31 62 r
     = column row "Name" ++ repeat " " (32 - length (column row "Name"))
  /\ chars 63 80 r
     = column row "Reference" ++ repeat " " (18 - length (column row "Reference"))
  /\ chars 81 87 r = column row "BSB"
  /\ chars 88 96 r = chars 9 17 r
  /\ chars 97 112 r = "Meya            "
  /\ chars 113 120 r = "00000000"
  /\ trim (chars 9 17 r) = column row "Account"
  /\ trim (chars 31 62 r) = column row "Name"
  /\ trim (chars 63 80 r) = column row "Reference".
Proof.
  intros H (Fb & Fa & Fn & Fr).
  apply generate_detail_record_Ok in H
    as [(_ & [=] & _)|(_ & amount & _ & [= ->] & [= ->] & El)].
  assert (length (toString (amount_in_cents amount)) <= 10) as Fm
    by (rewrite length_detail_record_of in El; lia).
  rewrite <- (padStart_char (column row "Account") 9 " ").
  rewrite <- (padStart_char (toString (amount_in_cents amount)) 10 "0").
  rewrite <- (padEnd_char (column row "Name") 32 " ").
  rewrite <- (padEnd_char (column row "Reference") 18 " ").
  unfold detail_record_of, join. cbn [String.concat append].
  remember (column row "BSB") as B eqn:EB.
  remember (padStart (column row "Account") 9 " ") as fa eqn:Ea.
  remember (padStart (toString (amount_in_cents amount)) 10 "0") as fm eqn:Em.
  remember (padEnd (column row "Name") 32 " ") as fn eqn:En.
  remember (padEnd (column row "Reference") 18 " ") as fr eqn:Er.
  assert (length fa = 9) as La by (subst fa; rewrite length_padStart by discriminate; lia).
  assert (length fm = 10) as Lm by (subst fm; rewrite length_padStart by discriminate; lia).
  assert (length fn = 32) as Ln by (subst fn; rewrite length_padEnd by discriminate; lia).
  assert (length fr = 18) as Lr by (subst fr; rewrite length_padEnd by discriminate; lia).
  assert (trim fa = column row "Account") as Ta by (subst fa; apply column_padStart).
  assert (trim fn = column row "Name") as Tn by (subst fn; apply column_padEnd).
  assert (trim fr = column row "Reference") as Tr by (subst fr; apply column_padEnd).
  rewrite <- Ta, <- Tn, <- Tr.
  clear Ea Em En Er El Ta Tn Tr EB.
  assert (forall x y, x = y -> trim x = trim y) as Ht by (intros x y ->; reflexivity).
  repeat split.
  - field_at "" (B ++ fa ++ " 53" ++ fm ++ fn ++ fr ++ B ++ fa ++ "Meya            00000000").
  - field_at "1" (fa ++ " 53" ++ fm ++ fn ++ fr ++ B ++ fa ++ "Meya            00000000").
  - field_at ("1" ++ B) (" 53" ++ fm ++ fn ++ fr ++ B ++ fa ++ "Meya            00000000").
  - field_at ("1" ++ B ++ fa) (fm ++ fn ++ fr ++ B ++ fa ++ "Meya            00000000").
  - field_at ("1" ++ B ++ fa ++ " 53") (fn ++ fr ++ B ++ fa ++ "Meya            00000000").
  - field_at ("1" ++ B ++ fa ++ " 53" ++ fm) (fr ++ B ++ fa ++ "Meya            00000000").
  - field_at ("1" ++ B ++ fa ++ " 53" ++ fm ++ fn) (B ++ fa ++ "Meya            00000000").
  - field_at ("1" ++ B ++ fa ++ " 53" ++ fm ++ fn ++ fr) (fa ++ "Meya            00000000").
  - transitivity fa.
    + field_at ("1" ++ B ++ fa ++ " 53" ++ fm ++ fn ++ fr ++ B) "Meya            00000000".
    + symmetry.
      field_at ("1" ++ B) (" 53" ++ fm ++ fn ++ fr ++ B ++ fa ++ "Meya            00000000").
  - field_at ("1" ++ B ++ fa ++ " 53" ++ fm ++ fn ++ fr ++ B ++ fa) "00000000".
  - field_at ("1" ++ B ++ fa ++ " 53" ++ fm ++ fn ++ fr ++ B ++ fa ++ "Meya            ") "".
  - apply Ht.
    field_at ("1" ++ B) (" 53" ++ fm ++ fn ++ fr ++ B ++ fa ++ "Meya            00000000").
  - apply Ht.
    field_at ("1" ++ B ++ fa ++ " 53" ++ fm) (fr ++ B ++ fa ++ "Meya            00000000").
  - apply Ht.
    field_at ("1" ++ B ++ fa ++ " 53" ++ fm ++ fn) (B ++ fa ++ "Meya            00000000").
Qed.

Lemma detail_record_layout_witness :
  exists r,
    generate_detail_record short_account_row = Ok (Some r, Some (Int 1200))
    /\ chars 2 8 r = "000-000"
    /\ chars 9 17 r = "    12-34"
    /\ chars 21 30 r = "0000001200"
    /\ chars 31 62 r = "R SMITH                         "
    /\ chars 63 80 r = "TEST              "
    /\ chars 81 87 r = "000-000"
    /\ chars 88 96 r = "    12-34".
Proof.
  destruct (generate_detail_record short_account_row) as [[[r|] [a|]]|m] eqn:E;
    try (vm_compute in E; discriminate).
  assert (a = Int 1200) as -> by (vm_compute in E; congruence).
  destruct (detail_record_layout _ r _ E)
    as (_ & Hb & Ha & _ & Hm & Hn & Hr & Ht & Ht' & _).
  { split; [reflexivity |]. repeat split; apply Nat.leb_le; reflexivity. }
  exists r. split; [reflexivity |].
  rewrite Ht', Ha, Hb, Hm, Hn, Hr, Ht. repeat split.
Defined.

(** X3. A trailer that is returned has its fixed fields in place: the type
    7 and the filler 999-999 at characters 1-8, and blanks at 9-20, 51-74 and
    81-120. *)
Theorem trailer_layout (aba_content : list string) (total_amount : number)
    (trailer : string) :
  generate_file_total_record aba_content total_amount = Ok trailer ->
  chars 1 8 trailer = "7999-999"
  /\ chars 9 20 trailer = "            "
  /\ chars 51 74 trailer = "                        "
  /\ chars 81 120 trailer = "                                        ".
Proof.
  intros H. destruct (trailer_inv _ _ _ H) as (Ln & Lc & _ & ->).
  set (net := padStart _ 10 _) in *. set (count := padStart _ 6 _) in *.
  clearbody net count.
  split; [reflexivity |]. split; [|split].
  - field_at "7999-999" (net ++ net ++ "0000000000                        "
                           ++ count ++ "                                        ").
  - field_at ("7999-999            " ++ net ++ net ++ "0000000000")
      (count ++ "                                        ").
  - field_at ("7999-999            " ++ net ++ net
                ++ "0000000000                        " ++ count) "".
Qed.

Lemma trailer_layout_witness :
  exists trailer,
    generate_file_total_record ["header"; "detail"] (Int 1200) = Ok trailer
    /\ chars 1 8 trailer = "7999-999"
    /\ chars 51 74 trailer = "                        ".
Proof.
  destruct (generate_file_total_record ["header"; "detail"] (Int 1200))
    as [trailer|m] eqn:E; [|vm_compute in E; discriminate].
  destruct (trailer_layout _ _ _ E) as (H1 & _ & H3 & _).
  exists trailer. repeat split; assumption.
Defined.

(** ** Amounts with two decimals *)

Section Cents.

Lemma all_from_spec (P : Z -> bool) (fuel : nat) : forall c : Z,
  all_from fuel c P = true ->
  forall x : Z, (c <= x < c + Z.of_nat fuel)%Z -> P x = true.
Proof.
  induction fuel as [|k IH]; intros c H x Hx; [lia |].
  cbn [all_from] in H. apply andb_true_iff in H as [Hc Hk].
  destruct (Z.eq_dec x c) as [->|Hne]; [exact Hc |].
  apply (IH (c + 1)%Z Hk). lia.
Qed.

Lemma number_eqb_eq (x y : number) : number_eqb x y = true -> x = y.
Proof.
  destruct x as [|a|a], y as [|b|b]; simpl; try discriminate; try reflexivity.
  - intros H. apply Bool.eqb_prop in H. now subst.
  - intros H. apply Z.eqb_eq in H. now subst.
Qed.

(** [replace] leaves a string without the character as it is, and removes
    the character in front of one. *)
Lemma replace_without (c : ascii) (s : string) :
  without c s -> replace s (String c "") "" = s.
Proof.
  induction s as [|x s IH]; intros H; [reflexivity |].
  destruct H as (Hx & Hs). cbn [replace prefix].
  destruct (ascii_dec c x) as [E|_]; [congruence |].
  now rewrite IH.
Qed.

Lemma replace_head (c : ascii) (s : string) :
  replace (String c s) (String c "") "" = s.
Proof.
  cbn [replace prefix]. destruct (ascii_dec c c) as [_|N]; [|congruence].
  assert (prefix "" s = true) as -> by (now destruct s).
  change ("" ++ substring (length (String c ""))
            (length (String c s) - length (String c "")) (String c s))
    with (substring 0 (length s - 0) s).
  rewrite Nat.sub_0_r. apply substring_0_length.
Qed.

(** The digits of a number hold no other character. *)
Lemma without_decimal_aux (c : ascii) (f : nat) : forall (n : Z) (acc : string),
  isDigit c = false -> without c acc -> without c (decimal_aux f n acc).
Proof.
  induction f as [|f IH]; intros n acc Hc Ha; [exact Ha |].
  cbn [decimal_aux].
  assert (without c (String (digitChar (n mod 10)) acc)) as H.
  { split; [|exact Ha]. intros E.
    destruct (digitChar_digit (n mod 10)) as [Hd _]; [apply Z.mod_pos_bound; lia |].
    congruence. }
  destruct (n <? 10)%Z; [exact H | now apply IH].
Qed.

Lemma without_decimal (c : ascii) (n : Z) : isDigit c = false -> without c (decimal n).
Proof. intros H. now apply without_decimal_aux. Qed.

Lemma without_append (c : ascii) (a b : string) :
  without c (a ++ b) <-> without c a /\ without c b.
Proof.
  induction a as [|x a IH]; simpl; [tauto |]. rewrite IH. tauto.
Qed.

Lemma without_two_decimals (c : ascii) (n : Z) :
  isDigit c = false -> c <> "."%char -> without c (two_decimals n).
Proof.
  intros Hd Hp. unfold two_decimals.
  apply without_append. split; [now apply without_decimal |].
  cbn [append without].
  destruct (digitChar_digit ((n / 10) mod 10)) as [H1 _]; [apply Z.mod_pos_bound; lia |].
  destruct (digitChar_digit (n mod 10)) as [H2 _]; [apply Z.mod_pos_bound; lia |].
  repeat split; congruence.
Qed.

End Cents.

(** ** The document as a whole *)

Section Document.

Lemma length_join_lines (lines : list string) :
  lines <> [] ->
  Forall (fun line => length line = 120) lines ->
  length (join LF lines ++ LF) = 121 * List.length lines.
Proof.
  intros Hne H. induction H as [|x l Hx Hl IH]; [congruence |].
  destruct l as [|y l].
  - cbn [join String.concat]. rewrite length_append, Hx. reflexivity.
  - change (join LF (x :: y :: l)) with (x ++ LF ++ join LF (y :: l)).
    rewrite !append_assoc, length_append, length_append, IH by discriminate.
    rewrite Hx. change (length LF) with 1. cbn [List.length]. lia.
Qed.

(** The loop returns only if every row returned. *)
Lemma for_rows_returned (csvData : list Row) :
  forall aba_content total_amount st,
  for_rows csvData aba_content total_amount = Ok st ->
  Forall (fun row => exists r, generate_detail_record row = Ok r) csvData.
Proof.
  induction csvData as [|row rest IH]; intros c t st H; [constructor |].
  cbn [for_rows] in H.
  destruct (generate_detail_record row) as [r|m] eqn:E; [|discriminate].
  constructor; [eauto |]. cbn [bind] in H.
  destruct r as [[r|] [a|]]; try (eapply IH; exact H).
  destruct (push c r) as [c'|m]; [|discriminate].
  cbn [bind] in H. eapply IH; exact H.
Qed.

Lemma processCsvToAba_returned (today : Date) (csvData : list Row) (doc : string) :
  processCsvToAba today csvData = Ok doc ->
  Forall (fun row => exists r, generate_detail_record row = Ok r) csvData.
Proof.
  unfold processCsvToAba. intros H.
  destruct (generate_descriptive_record today) as [header|m]; [|discriminate].
  cbn [bind] in H. destruct (push [] header) as [c|m]; [|discriminate].
  cbn [bind] in H.
  destruct (for_rows csvData c (Int 0)) as [st|m] eqn:E; [|discriminate].
  eapply for_rows_returned; exact E.
Qed.

End Document.

(** X5. An assembled document has 121 characters for the header, for the
    trailer and for each accepted row: every line is 120 characters and its
    line feed. *)
Theorem document_length (today : Date) (csvData : list Row) (doc : string) :
  processCsvToAba today csvData = Ok doc ->
  length doc = 121 * (2 + List.length (accepted_details csvData)).
Proof.
  intros H.
  destruct (document_trailer today csvData doc H)
    as (header & trailer & (Hh & ->) & _ & Lt & _).
  rewrite length_join_lines.
  - cbn [List.length]. rewrite length_app, length_map. cbn [List.length]. lia.
  - discriminate.
  - constructor; [now apply generate_descriptive_record_length with today |].
    apply Forall_app. split; [apply accepted_details_length |].
    constructor; [exact Lt | constructor].
Qed.

Lemma document_length_witness :
  exists doc,
    processCsvToAba the_3rd_of_November_2026
      [smith "$12.00"; blank_row; smith "$1,234.56"] = Ok doc
    /\ length doc = 484.
Proof.
  destruct (processCsvToAba the_3rd_of_November_2026
              [smith "$12.00"; blank_row; smith "$1,234.56"]) as [doc|m] eqn:E;
    [|vm_compute in E; discriminate].
  exists doc. split; [reflexivity |].
  rewrite (document_length _ _ _ E). reflexivity.
Defined.

(** X6. Nothing is truncated: a row that passes validation with a BSB of 7
    characters and an account, a name, a reference or an amount wider than
    its field throws the length assertion, and a table that contains such a
    row gives no document, whatever its other rows. *)
Theorem overlong_field_aborts (row : Row) :
  valid row ->
  length (column row "BSB") = 7 ->
  9 < length (column row "Account") \/ 32 < length (column row "Name")
  \/ 18 < length (column row "Reference") \/ 10 < length (toString (cents row)) ->
  (exists len, 120 < len
     /\ generate_detail_record row = Throw (assertion_failed "Detail" len))
  /\ forall (today : Date) (before after : list Row) (doc : string),
       processCsvToAba today (before ++ row :: after) <> Ok doc.
Proof.
  intros Hv Hb Hw.
  assert (exists len, 120 < len
            /\ generate_detail_record row = Throw (assertion_failed "Detail" len))
    as (len & Hl & Ht).
  { destruct (generate_detail_record_columns row Hv) as (amount & Em & Hg).
    cbv zeta in Hg. unfold cents in Hw. rewrite Em in Hw.
    pose proof (length_detail_record_of (column row "BSB") (column row "Account")
                  (column row "Name") (column row "Reference")
                  (amount_in_cents amount)) as El.
    eexists. split; [|rewrite Hg].
    2: { destruct (Nat.eqb_spec
           (length (detail_record_of (column row "BSB") (column row "Account")
                      (column row "Name") (column row "Reference")
                      (amount_in_cents amount))) LINE_LENGTH) as [E|E];
           [unfold LINE_LENGTH in E; lia | reflexivity]. }
    lia. }
  split; [eauto |].
  intros today before after doc H.
  apply processCsvToAba_returned in H.
  apply Forall_app in H as [_ H]. inversion H as [|? ? (r & Hr) _]; subst.
  rewrite Ht in Hr. discriminate.
Qed.

Lemma overlong_field_aborts_witness :
  generate_detail_record long_name_row
  = Throw "Assertion failed: Detail record length is 121, expected 120"
  /\ forall doc,
       processCsvToAba the_3rd_of_November_2026
         [smith "$12.00"; long_name_row; blank_row] <> Ok doc.
Proof.
  split; [vm_compute; reflexivity |].
  destruct (overlong_field_aborts long_name_row) as (_ & H).
  - apply valid_object; reflexivity.
  - reflexivity.
  - right; left. apply Nat.ltb_lt. reflexivity.
  - intros doc. exact (H the_3rd_of_November_2026 [smith "$12.00"] [blank_row] doc).
Defined.

(** ** Splitting *)

Section Split.

Lemma limit_In {A : Type} (l : list A) : forall (n : N) (x : A),
  In x (limit l n) -> In x l.
Proof.
  induction l as [|y l IH]; intros n x H; [exact H |].
  cbn [limit] in H. destruct (n =? 0)%N; [destruct H |].
  destruct H as [H|H]; [left; exact H | right; eapply IH; exact H].
Qed.

Lemma limit_all {A : Type} (l : list A) : forall n : N,
  (N.of_nat (List.length l) <= n)%N -> limit l n = l.
Proof.
  induction l as [|y l IH]; intros n H; [reflexivity |].
  cbn [limit]. cbn [List.length] in H.
  destruct (N.eqb_spec n 0) as [E|E]; [lia |].
  f_equal. apply IH. lia.
Qed.

Lemma limit_Forall2 {A B : Type} (R : A -> B -> Prop) (l : list A) (l' : list B) :
  Forall2 R l l' -> forall n, Forall2 R (limit l n) (limit l' n).
Proof.
  induction 1 as [|x y l l' Hxy Hl IH]; intros n; [constructor |].
  cbn [limit]. destruct (n =? 0)%N; [constructor |].
  constructor; [exact Hxy | apply IH].
Qed.

(** One step of [split_from] with a separator of one character. *)
Lemma split_from_char (c x : ascii) (s cur : string) :
  split_from (String c "") (String x s) 0 cur
  = if ascii_dec c x
    then cur :: split_from (String c "") s 0 ""
    else split_from (String c "") s 0 (cur ++ String x "").
Proof.
  cbn [split_from prefix]. destruct (ascii_dec c x); [|reflexivity].
  now destruct s.
Qed.

(** The parts hold no separator, and no character that the string and the
    part being read do not hold. *)
Lemma split_from_without_separator (c : ascii) (s : string) : forall cur,
  without c cur -> Forall (without c) (split_from (String c "") s 0 cur).
Proof.
  induction s as [|x s IH]; intros cur Hc; [repeat constructor; exact Hc |].
  rewrite split_from_char. destruct (ascii_dec c x) as [E|E].
  - constructor; [exact Hc |]. apply IH. exact I.
  - apply IH. apply without_append. split; [exact Hc |].
    split; [congruence | exact I].
Qed.

Lemma split_from_without (c d : ascii) (s : string) : forall cur,
  without d s -> without d cur -> Forall (without d) (split_from (String c "") s 0 cur).
Proof.
  induction s as [|x s IH]; intros cur Hs Hc; [repeat constructor; exact Hc |].
  destruct Hs as (Hx & Hs).
  rewrite split_from_char. destruct (ascii_dec c x) as [E|E].
  - constructor; [exact Hc |]. apply IH; [exact Hs | exact I].
  - apply IH; [exact Hs |]. apply without_append. split; [exact Hc |].
    split; [exact Hx | exact I].
Qed.

(** A string without the separator is its own only part. *)
Lemma split_from_whole (c : ascii) (s : string) : forall cur,
  without c s -> split_from (String c "") s 0 cur = [cur ++ s].
Proof.
  induction s as [|x s IH]; intros cur Hs; [now rewrite append_empty_r |].
  destruct Hs as (Hx & Hs).
  rewrite split_from_char. destruct (ascii_dec c x) as [E|E]; [congruence |].
  rewrite IH by exact Hs. now rewrite append_assoc.
Qed.

Lemma split_char_without (c : ascii) (s : string) :
  Forall (without c) (split s (String c "")).
Proof.
  apply Forall_forall. intros x Hx. apply limit_In in Hx.
  pose proof (split_from_without_separator c s "" I) as H.
  rewrite Forall_forall in H. now apply H.
Qed.

Lemma split_char_without_other (c d : ascii) (s : string) :
  without d s -> Forall (without d) (split s (String c "")).
Proof.
  intros Hs. apply Forall_forall. intros x Hx. apply limit_In in Hx.
  pose proof (split_from_without c d s "" Hs I) as H.
  rewrite Forall_forall in H. now apply H.
Qed.

Lemma split_char_whole (c : ascii) (s : string) :
  without c s -> split s (String c "") = [s].
Proof.
  intros H. unfold split. rewrite split_from_whole by exact H. reflexivity.
Qed.

(** Trimming brings no character in. *)
Lemma without_trimStart (c : ascii) (s : string) : without c s -> without c (trimStart s).
Proof.
  induction s as [|x s IH]; [auto |]. intros (Hx & Hs). cbn [trimStart].
  destruct (isWhiteSpace x); [now apply IH | split; assumption].
Qed.

Lemma without_trimEnd (c : ascii) (s : string) : without c s -> without c (trimEnd s).
Proof.
  induction s as [|x s IH]; [auto |]. intros (Hx & Hs). rewrite trimEnd_cons.
  specialize (IH Hs). destruct (trimEnd s).
  - destruct (isWhiteSpace x); [exact I | split; [exact Hx | exact I]].
  - split; assumption.
Qed.

Lemma without_trim (c : ascii) (s : string) : without c s -> without c (trim s).
Proof. intros H. now apply without_trimEnd, without_trimStart. Qed.

End Split.

(** ** Row objects *)

Section Objects.

Lemma includes_In (array : list string) (x : string) :
  includes array x = true <-> In x array.
Proof.
  unfold includes. rewrite existsb_exists. split.
  - intros (y & Hy & E). apply String.eqb_eq in E. now subst.
  - intros H. exists x. split; [exact H | apply String.eqb_refl].
Qed.

Lemma object_absent (o : rowObject) (k : string) :
  ~ In k (map fst o) -> object o k = Undefined.
Proof.
  unfold object. induction o as [|[k' v'] o IH]; intros H; [reflexivity |].
  cbn [find fst]. destruct (String.eqb_spec k' k) as [E|E].
  - exfalso. apply H. left. exact E.
  - apply IH. intros H'. apply H. right. exact H'.
Qed.

Lemma object_present (o : rowObject) (k : string) :
  In k (map fst o) -> exists v, object o k = Str v /\ In (k, v) o.
Proof.
  unfold object. induction o as [|[k' v'] o IH]; intros H; [destruct H |].
  cbn [find fst]. destruct (String.eqb_spec k' k) as [E|E].
  - subst. exists v'. split; [reflexivity | left; reflexivity].
  - destruct H as [H|H]; [contradiction |].
    destruct (IH H) as (v & Hv & Hin). exists v. split; [exact Hv | right; exact Hin].
Qed.

Lemma object_app (o1 o2 : rowObject) (k : string) :
  object (o1 ++ o2) k = if includes (map fst o1) k then object o1 k else object o2 k.
Proof.
  unfold object, includes. induction o1 as [|[k' v'] o1 IH]; [reflexivity |].
  cbn [app find map fst existsb]. rewrite (String.eqb_sym k k').
  destruct (String.eqb_spec k' k); [reflexivity | exact IH].
Qed.

Lemma object_replace (o : rowObject) (key v k : string) :
  object (map (fun kv => if (fst kv =? key)%string then (key, v) else kv) o) k
  = if (k =? key)%string
    then (if includes (map fst o) key then Str v else Undefined)
    else object o k.
Proof.
  unfold object, includes. induction o as [|[k' v'] o IH].
  - simpl. now destruct (k =? key)%string.
  - cbn [map find fst existsb]. rewrite (String.eqb_sym key k').
    destruct (String.eqb_spec k' key) as [E|E]; cbn [fst orb].
    + subst k'. rewrite (String.eqb_sym key k).
      destruct (String.eqb_spec k key) as [E2|E2]; [reflexivity | exact IH].
    + destruct (String.eqb_spec k' k) as [E2|E2].
      * subst k'. destruct (String.eqb_spec k key); [congruence | reflexivity].
      * exact IH.
Qed.

(** Reading a property after an assignment. *)
Lemma object_assign (o : rowObject) (key v k : string) :
  key <> "__proto__" ->
  object (assign o key v) k = if (k =? key)%string then Str v else object o k.
Proof.
  intros Hp. unfold assign.
  destruct (String.eqb_spec key "__proto__") as [E|_]; [contradiction |].
  destruct (includes (map fst o) key) eqn:Hi.
  - rewrite object_replace, Hi. reflexivity.
  - rewrite object_app.
    destruct (String.eqb_spec k key) as [->|E].
    + rewrite Hi. unfold object. cbn [find fst]. now rewrite String.eqb_refl.
    + destruct (includes (map fst o) k) eqn:Hk; [reflexivity |].
      unfold object. cbn [find fst].
      destruct (String.eqb_spec key k); [congruence |].
      symmetry. apply (object_absent o k).
      intros H. apply includes_In in H. congruence.
Qed.

Lemma assign_proto (o : rowObject) (v : string) : assign o "__proto__" v = o.
Proof. reflexivity. Qed.

(** The keys after an assignment. *)
Lemma assign_keys (o : rowObject) (key v k : string) :
  In k (map fst (assign o key v))
  <-> In k (map fst o) \/ (k = key /\ key <> "__proto__").
Proof.
  unfold assign. destruct (String.eqb_spec key "__proto__") as [E|E].
  - split; [auto | intros [H|[_ H]]; [exact H | contradiction]].
  - destruct (includes (map fst o) key) eqn:Hi.
    + apply includes_In in Hi.
      assert (map fst (map (fun kv : string * string =>
                              if (fst kv =? key)%string then (key, v) else kv) o)
              = map fst o) as ->.
      { clear. induction o as [|[k' v'] o IH]; [reflexivity |].
        cbn [map fst]. rewrite IH.
        destruct (String.eqb_spec k' key) as [->|_]; reflexivity. }
      split; [auto | intros [H|[-> _]]; assumption].
    + rewrite map_app, in_app_iff. cbn [map fst In]. split.
      * intros [H|[H|[]]]; [left; exact H | right; split; [now symmetry | exact E]].
      * intros [H|[-> _]]; [left; exact H | right; left; reflexivity].
Qed.

(** The values after an assignment. *)
Lemma assign_values (P : string -> Prop) (o : rowObject) (key v : string) :
  Forall P (map snd o) -> P v -> Forall P (map snd (assign o key v)).
Proof.
  intros Ho Hv. unfold assign.
  destruct (key =? "__proto__")%string; [exact Ho |].
  destruct (includes (map fst o) key).
  - clear -Ho Hv. induction o as [|[k' v'] o IH]; [constructor |].
    cbn [map snd fst] in *. inversion Ho as [|? ? H1 H2]; subst.
    destruct (k' =? key)%string; constructor; auto.
  - rewrite map_app. apply Forall_app. split; [exact Ho |].
    constructor; [exact Hv | constructor].
Qed.

(** No key twice. *)
Lemma assign_NoDup (o : rowObject) (key v : string) :
  NoDup (map fst o) -> NoDup (map fst (assign o key v)).
Proof.
  intros H. unfold assign.
  destruct (key =? "__proto__")%string; [exact H |].
  destruct (includes (map fst o) key) eqn:Hi.
  - assert (map fst (map (fun kv : string * string =>
                            if (fst kv =? key)%string then (key, v) else kv) o)
            = map fst o) as ->; [|exact H].
    clear. induction o as [|[k' v'] o IH]; [reflexivity |].
    cbn [map fst]. rewrite IH.
    destruct (String.eqb_spec k' key) as [->|_]; reflexivity.
  - rewrite map_app. cbn [map fst]. apply NoDup_app.
    + exact H.
    + repeat constructor; auto.
    + intros a Ha [<-|[]]. apply includes_In in Ha. congruence.
Qed.

End Objects.

(** ** The rows [parseCsv] builds *)

Section ParsedRows.

(** The cell assigned for column [j]: the trimmed value, or the empty
    string when the line has no value there. *)
Lemma cell_trim (values : list string) (j : nat) :
  match nth_error values j with
  | Some v => if (v =? "")%string then EmptyString else trim v
  | None => EmptyString
  end = trim (nth j values "").
Proof.
  destruct (nth_error values j) as [v|] eqn:E.
  - rewrite (nth_error_nth values j "" E).
    destruct (String.eqb_spec v "") as [->|_]; reflexivity.
  - apply nth_error_None in E. now rewrite nth_overflow by exact E.
Qed.

(** The object after the first [n] columns. *)
Lemma parse_values_step (header values : list string) (n : nat) :
  fold_left (assign_column header values)
    (seq 0 (S n)) []
  = assign
      (fold_left (assign_column header values)
         (seq 0 n) [])
      (nth n header "") (trim (nth n values "")).
Proof.
  rewrite seq_S, fold_left_app. cbn [fold_left Nat.add].
  unfold assign_column at 1. now rewrite cell_trim.
Qed.

Lemma parse_values_lookup (header values : list string) (n : nat) (k : string) :
  let o := fold_left (assign_column header values)
             (seq 0 n) [] in
  (forall j, j < n -> nth j header "" = k -> k <> "__proto__" ->
             (forall j', j < j' < n -> nth j' header "" <> k) ->
             object o k = Str (trim (nth j values "")))
  /\ ((forall j, j < n -> nth j header "" <> k) \/ k = "__proto__" ->
      object o k = Undefined).
Proof.
  induction n as [|n IH]; cbv zeta.
  - split; [intros j Hj; lia | reflexivity].
  - rewrite parse_values_step. cbv zeta in IH. destruct IH as (IHa & IHb).
    set (o := fold_left (assign_column header values) (seq 0 n) []) in *.
    destruct (string_dec (nth n header "") "__proto__") as [Ep|Ep].
    + rewrite Ep, assign_proto. split.
      * intros j Hj Hk Hp Hlast.
        assert (j <> n) by congruence.
        apply IHa; [lia | assumption | assumption |].
        intros j' Hj'. apply Hlast. lia.
      * intros [H|H]; apply IHb; [left; intros j Hj; apply H; lia | right; exact H].
    + split.
      * intros j Hj Hk Hp Hlast. rewrite object_assign by exact Ep.
        destruct (Nat.eq_dec j n) as [->|Hne].
        -- rewrite Hk, String.eqb_refl. reflexivity.
        -- assert (nth n header "" <> k) as Hn by (apply Hlast; lia).
           destruct (String.eqb_spec k (nth n header "")); [congruence |].
           apply IHa; [lia | assumption | assumption |].
           intros j' Hj'. apply Hlast. lia.
      * intros H. rewrite object_assign by exact Ep.
        assert (k <> nth n header "") as Hn.
        { destruct H as [H|H]; [intros E; apply (H n); [lia | now symmetry] | congruence]. }
        destruct (String.eqb_spec k (nth n header "")); [congruence |].
        apply IHb. destruct H as [H|H]; [left; intros j Hj; apply H; lia | right; exact H].
Qed.

Lemma parse_values_keys (header values : list string) (n : nat) (k : string) :
  In k (map fst
          (fold_left (assign_column header values)
             (seq 0 n) []))
  <-> (exists j, j < n /\ nth j header "" = k) /\ k <> "__proto__".
Proof.
  induction n as [|n IH].
  - simpl. split; [intros [] | intros ((j & Hj & _) & _); lia].
  - rewrite parse_values_step, assign_keys, IH. split.
    + intros [((j & Hj & E) & Hp)|(-> & Hp)].
      * split; [exists j; split; [lia | exact E] | exact Hp].
      * split; [exists n; split; [lia | reflexivity] | exact Hp].
    + intros ((j & Hj & E) & Hp).
      destruct (Nat.eq_dec j n) as [->|Hne].
      * right. split; [now symmetry | congruence].
      * left. split; [exists j; split; [lia | exact E] | exact Hp].
Qed.

Lemma parse_values_invariant (P : string -> Prop) (header values : list string) (n : nat) :
  (forall j, P (trim (nth j values ""))) ->
  NoDup (map fst
           (fold_left (assign_column header values)
              (seq 0 n) []))
  /\ Forall P
       (map snd
          (fold_left (assign_column header values)
             (seq 0 n) [])).
Proof.
  intros HP. induction n as [|n (IH1 & IH2)]; [split; constructor |].
  rewrite parse_values_step. split.
  - now apply assign_NoDup.
  - apply assign_values; [exact IH2 | apply HP].
Qed.

(** Where the rows come from: a line after the first, split at the commas,
    under the names of the first line. *)
Lemma parseCsv_In (csvText : string) (o : rowObject) :
  In o (parseCsv csvText) ->
  exists first rest line,
    split (trim csvText) LF = first :: rest
    /\ In line rest
    /\ o = parse_values (map trim (split first ",")) (split line ",").
Proof.
  unfold parseCsv. destruct (split (trim csvText) LF) as [|first rest]; [intros [] |].
  intros H. apply in_flat_map in H as (line & Hl & Ho).
  exists first, rest, line. split; [reflexivity |]. split; [exact Hl |].
  unfold parse_line in Ho.
  destruct (_ && _)%bool; [destruct Ho |].
  destruct Ho as [<-|[]]. reflexivity.
Qed.

Lemma insert_index_In (n : Z) (k : string) (l : list (Z * string)) (x : Z * string) :
  In x (insert_index n k l) <-> x = (n, k) \/ In x l.
Proof.
  induction l as [|[n' k'] l IH]; cbn [insert_index In].
  - split; [intros [H|[]]; auto | intros [H|[]]; auto].
  - destruct (n <=? n')%Z; cbn [In]; [split; intros [H|H]; auto |].
    rewrite IH. split; intros H; tauto || (destruct H as [H|[H|H]]; auto).
Qed.

(** [Object.keys] lists the keys of the object, each of them. *)
Lemma Object_keys_In (o : rowObject) (k : string) :
  In k (Object_keys o) <-> In k (map fst o).
Proof.
  unfold Object_keys. rewrite in_app_iff, filter_In.
  assert (forall keys,
            In k (map snd
                    (fold_right
                       (fun key sorted =>
                          match arrayIndex key with
                          | Some n => insert_index n key sorted
                          | None => sorted
                          end) [] keys))
            <-> In k keys /\ arrayIndex k <> None) as Hs.
  { induction keys as [|key keys IH]; cbn [fold_right In].
    - simpl. tauto.
    - destruct (arrayIndex key) as [n|] eqn:E.
      + rewrite in_map_iff. split.
        * intros ((n', k') & Hk & Hin). cbn [snd] in Hk. subst k'.
          apply insert_index_In in Hin as [[= -> ->]|Hin].
          -- split; [left; reflexivity | congruence].
          -- assert (In k (map snd (fold_right
               (fun key sorted => match arrayIndex key with
                                  | Some n => insert_index n key sorted
                                  | None => sorted end) [] keys))) as H
               by (apply in_map_iff; exists (n', k); auto).
             apply IH in H as [H1 H2]. auto.
        * intros ([->|Hin] & Hne).
          -- exists (n, k). split; [reflexivity |]. apply insert_index_In. auto.
          -- assert (In k keys /\ arrayIndex k <> None) as H by auto.
             apply IH in H. apply in_map_iff in H as ((n', k') & Hk & H).
             exists (n', k'). split; [exact Hk |]. apply insert_index_In. auto.
      + rewrite IH. split.
        * intros [H1 H2]. auto.
        * intros [[->|H1] H2]; [congruence | auto]. }
  rewrite Hs. destruct (arrayIndex k); split.
  - intros [[H _]|[_ [=]]]. exact H.
  - intros H. left. split; [exact H | discriminate].
  - intros [[_ H]|[H _]]; [congruence | exact H].
  - intros H. right. auto.
Qed.

End ParsedRows.

(** X7. In a row that [parseCsv] builds, the name of a column gives the
    trimmed value under it on the line, the last one when the name stands
    twice in the header, and the empty string when the line is too short to
    have one; a name that is not in the header is no key of the row, and
    gives [undefined] unless [Object.prototype] defines it. *)
Theorem parsed_row_lookup (header values : list string) (j : nat) :
  j < List.length header ->
  nth j header "" <> "__proto__" ->
  (forall j', j < j' < List.length header -> nth j' header "" <> nth j header "") ->
  row_of (parse_values header values) (nth j header "") = Str (trim (nth j values ""))
  /\ (List.length values <= j -> row_of (parse_values header values) (nth j header "") = Str "")
  /\ forall k,
       ~ In k header ->
       includes (Object_keys (parse_values header values)) k = false
       /\ (~ In k Object_prototype -> row_of (parse_values header values) k = Undefined).
Proof.
  intros Hj Hp Hlast.
  destruct (parse_values_lookup header values (List.length header) (nth j header ""))
    as (Ha & _).
  cbv zeta in Ha. unfold row_of, parse_values.
  assert (object (fold_left (assign_column header values) (seq 0 (List.length header)) [])
            (nth j header "") = Str (trim (nth j values ""))) as E
    by (apply Ha; auto).
  split; [exact E |]. split.
  - intros Hl. rewrite E, nth_overflow by exact Hl. reflexivity.
  - intros k Hk. split.
    + destruct (includes (Object_keys
                            (fold_left (assign_column header values)
                               (seq 0 (List.length header)) [])) k) eqn:Ei;
        [|reflexivity].
      apply includes_In, Object_keys_In, parse_values_keys in Ei
        as ((i & Hi & E') & _).
      exfalso. apply Hk. rewrite <- E'. now apply nth_In.
    + intros _.
      destruct (parse_values_lookup header values (List.length header) k) as (_ & Hb).
      apply Hb. left. intros i Hi E'. apply Hk. rewrite <- E'. now apply nth_In.
Qed.

Lemma parsed_row_lookup_witness :
  row_of (parse_values ["BSB"; "Amount"; "Name"; "Amount"] ["000-000"; " 1.00"; "R SMITH "])
    "Name" = Str "R SMITH"
  /\ row_of (parse_values ["BSB"; "Amount"; "Name"; "Amount"] ["000-000"; " 1.00"; "R SMITH "])
       "Amount" = Str ""
  /\ row_of (parse_values ["BSB"; "Amount"; "Name"; "Amount"] ["000-000"; " 1.00"; "R SMITH "])
       "Account" = Undefined
  /\ includes
       (Object_keys
          (parse_values ["BSB"; "Amount"; "Name"; "Amount"] ["000-000"; " 1.00"; "R SMITH "]))
       "toString" = false.
Proof.
  destruct (parsed_row_lookup ["BSB"; "Amount"; "Name"; "Amount"]
              ["000-000"; " 1.00"; "R SMITH "] 2) as (H1 & _ & H3).
  { simpl; lia. }
  { discriminate. }
  { intros j' Hj'. simpl in Hj'. assert (j' = 3) as -> by lia. discriminate. }
  destruct (parsed_row_lookup ["BSB"; "Amount"; "Name"; "Amount"]
              ["000-000"; " 1.00"; "R SMITH "] 3) as (_ & H2 & _).
  { simpl; lia. }
  { discriminate. }
  { intros j' Hj'. simpl in Hj'. lia. }
  split; [exact H1 |]. split; [apply H2; simpl; lia |]. split.
  - apply (H3 "Account").
    + simpl. intros [H|[H|[H|[H|[]]]]]; discriminate.
    + simpl. intuition discriminate.
  - apply (H3 "toString"). simpl. intros [H|[H|[H|[H|[]]]]]; discriminate.
Defined.

Section Uniform.

Lemma parse_values_clean (header : list string) (line : string) :
  without "010" line ->
  NoDup (map fst (parse_values header (split line ",")))
  /\ Forall (fun v => trim v = v /\ without "," v /\ without "010" v)
       (map snd (parse_values header (split line ","))).
Proof.
  intros Hl. apply parse_values_invariant. intros j.
  split; [apply trim_idempotent |].
  destruct (nth_in_or_default j (split line ",") "") as [Hin| ->].
  - split; apply without_trim.
    + pose proof (split_char_without "," line) as H.
      rewrite Forall_forall in H. now apply H.
    + pose proof (split_char_without_other "," "010" line Hl) as H.
      rewrite Forall_forall in H. now apply H.
  - split; exact I.
Qed.

Lemma includes_iff (a b : list string) (x : string) :
  (In x a <-> In x b) -> includes a x = includes b x.
Proof.
  intros H. apply Bool.eq_iff_eq_true. now rewrite !includes_In.
Qed.

(** The rows of one text have the same keys. *)
Lemma parseCsv_same_keys (csvText : string) (o o' : rowObject) (col : string) :
  In o (parseCsv csvText) -> In o' (parseCsv csvText) ->
  includes (Object_keys o') col = includes (Object_keys o) col.
Proof.
  intros H H'.
  destruct (parseCsv_In csvText o H) as (first & rest & line & Es & _ & ->).
  destruct (parseCsv_In csvText o' H') as (first' & rest' & line' & Es' & _ & ->).
  rewrite Es in Es'. injection Es' as <- <-.
  apply includes_iff. rewrite !Object_keys_In. unfold parse_values.
  now rewrite !parse_values_keys.
Qed.

(** No key of a row stands twice, and its values are trimmed cells. *)
Lemma parseCsv_values_clean (csvText : string) (o : rowObject) :
  In o (parseCsv csvText) ->
  NoDup (map fst o)
  /\ Forall (fun kv => trim (snd kv) = snd kv
                       /\ without "," (snd kv) /\ without "010" (snd kv)) o.
Proof.
  intros H.
  destruct (parseCsv_In csvText o H) as (first & rest & line & Es & Hl & ->).
  assert (without "010" line) as Wl.
  { pose proof (split_char_without "010" (trim csvText)) as Hs.
    fold LF in Hs. rewrite Es, Forall_forall in Hs. apply Hs. right. exact Hl. }
  destruct (parse_values_clean (map trim (split first ",")) line Wl) as (Hn & Hv).
  split; [exact Hn |]. rewrite Forall_map in Hv. exact Hv.
Qed.

(** A key of a row gives the string that the row holds under it. *)
Lemma own_key_string (o : rowObject) (col : string) :
  includes (Object_keys o) col = true -> exists v, row_of o col = Str v /\ In (col, v) o.
Proof.
  intros Hi. now apply includes_In, Object_keys_In, object_present in Hi.
Qed.

End Uniform.

(** X8. The rows of [parseCsv] are uniform and clean: they all have the
    same keys, so that the header check of [csv2aba] on the first row holds
    for every row; a key of a row gives a string, and a name that is no key
    gives [undefined] unless [Object.prototype] defines it; no key stands
    twice; and every value is trimmed and holds neither a comma nor a line
    feed. *)
Theorem parsed_rows_are_uniform (csvText : string) (o : rowObject) :
  In o (parseCsv csvText) ->
  (forall o' col,
     In o' (parseCsv csvText) ->
     includes (Object_keys o') col = includes (Object_keys o) col)
  /\ (forall col,
        (includes (Object_keys o) col = true -> exists v, row_of o col = Str v)
        /\ (includes (Object_keys o) col = false -> ~ In col Object_prototype ->
            row_of o col = Undefined))
  /\ NoDup (map fst o)
  /\ Forall (fun kv => trim (snd kv) = snd kv
                       /\ without "," (snd kv) /\ without "010" (snd kv)) o.
Proof.
  intros H. split; [|split].
  - intros o' col H'. now apply parseCsv_same_keys with csvText.
  - intros col. split.
    + intros Hi. destruct (own_key_string o col Hi) as (v & Hv & _). eauto.
    + intros Hi _. apply object_absent. intros Hin.
      apply Object_keys_In, includes_In in Hin. congruence.
  - exact (parseCsv_values_clean csvText o H).
Qed.

Lemma parsed_rows_are_uniform_witness :
  parseCsv ("Name, Amount" ++ LF ++ " R SMITH ,$12.00" ++ LF ++ LF ++ "X")
  = [ [("Name", "R SMITH"); ("Amount", "$12.00")]; [("Name", "X"); ("Amount", "")] ]
  /\ Forall (fun kv => trim (snd kv) = snd kv
                       /\ without "," (snd kv) /\ without "010" (snd kv))
       [("Name", "X"); ("Amount", "")].
Proof.
  assert (parseCsv ("Name, Amount" ++ LF ++ " R SMITH ,$12.00" ++ LF ++ LF ++ "X")
          = [ [("Name", "R SMITH"); ("Amount", "$12.00")];
              [("Name", "X"); ("Amount", "")] ]) as E by (vm_compute; reflexivity).
  split; [exact E |].
  apply (parsed_rows_are_uniform
           ("Name, Amount" ++ LF ++ " R SMITH ,$12.00" ++ LF ++ LF ++ "X")).
  rewrite E. right. left. reflexivity.
Defined.

(** X9. A comma never reaches [generate_detail_record] through [parseCsv]:
    the [Amount] of a parsed row holds none, so that only the dollar sign is
    removed from it, and a thousands separator in the CSV ends the cell. *)
Theorem parsed_amount_has_no_comma (csvText : string) (o : rowObject) (amount : string) :
  In o (parseCsv csvText) ->
  row_of o "Amount" = Str amount ->
  without "," amount
  /\ amountStr amount = trim (replace amount "$" "")
  /\ column (row_of o) "Amount" = amount.
Proof.
  intros H Ha.
  destruct (parseCsv_values_clean csvText o H) as (_ & Hv).
  assert (In ("Amount", amount) o) as Hin.
  { destruct (in_dec string_dec "Amount" (map fst o)) as [Hk|Hk].
    - apply object_present in Hk as (v & Hv' & Hin). unfold row_of in Ha. congruence.
    - apply object_absent in Hk. unfold row_of in Ha. congruence. }
  rewrite Forall_forall in Hv. destruct (Hv _ Hin) as (Ht & Hc & _). cbn [snd] in *.
  split; [exact Hc |]. split.
  - unfold amountStr. f_equal. apply replace_without.
    clear -Hc. induction amount as [|x s IH]; [exact I |].
    destruct Hc as (Hx & Hs). cbn [replace prefix].
    destruct (ascii_dec "$" x) as [E|E].
    + assert (prefix "" s = true) as -> by (now destruct s).
      change ("" ++ substring (length "$") (length (String x s) - length "$") (String x s))
        with (substring 0 (length s - 0) s).
      now rewrite Nat.sub_0_r, substring_0_length.
    + split; [exact Hx | now apply IH].
  - unfold column. now rewrite Ha.
Qed.

Lemma parsed_amount_has_no_comma_witness :
  parseCsv ("BSB,Reference,Name,Account,Amount" ++ LF
            ++ "000-000,TEST,R SMITH,157108231,$1,234.56")
  = [ [ ("BSB", "000-000"); ("Reference", "TEST"); ("Name", "R SMITH");
        ("Account", "157108231"); ("Amount", "$1") ] ]
  /\ amountStr "$1" = trim (replace "$1" "$" "")
  /\ amount_in_cents "$1" = Int 100.
Proof.
  assert (parseCsv ("BSB,Reference,Name,Account,Amount" ++ LF
                    ++ "000-000,TEST,R SMITH,157108231,$1,234.56")
          = [ [ ("BSB", "000-000"); ("Reference", "TEST"); ("Name", "R SMITH");
                ("Account", "157108231"); ("Amount", "$1") ] ]) as E
    by (vm_compute; reflexivity).
  split; [exact E |]. split; [|vm_compute; reflexivity].
  apply (parsed_amount_has_no_comma
           ("BSB,Reference,Name,Account,Amount" ++ LF
            ++ "000-000,TEST,R SMITH,157108231,$1,234.56")
           [ ("BSB", "000-000"); ("Reference", "TEST"); ("Name", "R SMITH");
             ("Account", "157108231"); ("Amount", "$1") ]).
  - rewrite E. left. reflexivity.
  - reflexivity.
Defined.

(** ** The entry point *)

(** X10. A CSV text without a data row gives no document. When [parseCsv]
    returns no row, as it does for a text of one line, [csv2aba] reports
    that all five columns are missing, even when the header line names them
    all: it logs the message, shows it in the status element and returns
    [undefined]; when the page has no such element it logs the message and
    then throws a ReferenceError. *)
Theorem csv2aba_without_data_row (today : Date) (csvText : string) (p : page) :
  (without "010" (trim csvText) -> parseCsv csvText = [])
  /\ (parseCsv csvText = [] ->
      csv2aba today csvText p
      = match statusMessage p with
        | Some _ =>
            (Ok None,
             {| console :=
                  (console p
                   ++ ["Error: Missing required CSV columns: BSB, Reference, Name, Account, Amount"])%list;
                statusMessage :=
                  Some "Error: Missing required CSV columns: BSB, Reference, Name, Account, Amount" |})
        | None =>
            (Throw "ReferenceError: statusMessage is not defined",
             {| console :=
                  (console p
                   ++ ["Error: Missing required CSV columns: BSB, Reference, Name, Account, Amount"])%list;
                statusMessage := None |})
        end).
Proof.
  split.
  - intros H. unfold parseCsv. fold LF in H.
    unfold LF in *. rewrite split_char_whole by exact H. reflexivity.
  - intros E. unfold csv2aba. rewrite E. cbn.
    destruct (statusMessage p); reflexivity.
Qed.

Lemma csv2aba_without_data_row_witness :
  csv2aba the_3rd_of_November_2026 "BSB,Reference,Name,Account,Amount"
    {| console := []; statusMessage := Some "" |}
  = (Ok None,
     {| console :=
          ["Error: Missing required CSV columns: BSB, Reference, Name, Account, Amount"];
        statusMessage :=
          Some "Error: Missing required CSV columns: BSB, Reference, Name, Account, Amount" |})
  /\ csv2aba the_3rd_of_November_2026 "BSB,Reference,Name,Account,Amount"
       {| console := []; statusMessage := None |}
     = (Throw "ReferenceError: statusMessage is not defined",
        {| console :=
             ["Error: Missing required CSV columns: BSB, Reference, Name, Account, Amount"];
           statusMessage := None |}).
Proof.
  assert (parseCsv "BSB,Reference,Name,Account,Amount" = []) as E.
  { apply (csv2aba_without_data_row the_3rd_of_November_2026
             "BSB,Reference,Name,Account,Amount"
             {| console := []; statusMessage := None |}).
    vm_compute. repeat split; discriminate. }
  split.
  - destruct (csv2aba_without_data_row the_3rd_of_November_2026
                "BSB,Reference,Name,Account,Amount"
                {| console := []; statusMessage := Some "" |}) as (_ & H2).
    rewrite (H2 E). reflexivity.
  - destruct (csv2aba_without_data_row the_3rd_of_November_2026
                "BSB,Reference,Name,Account,Amount"
                {| console := []; statusMessage := None |}) as (_ & H2).
    rewrite (H2 E). reflexivity.
Defined.

Section EntryPoint.

Lemma filter_nil_all {A : Type} (f : A -> bool) (l : list A) :
  filter f l = [] -> forall x, In x l -> f x = false.
Proof.
  induction l as [|y l IH]; intros H x Hx; [destruct Hx |].
  cbn [filter] in H. destruct (f y) eqn:E; [discriminate |].
  destruct Hx as [<-|Hx]; [exact E | now apply IH].
Qed.

(** A document is returned only past the header check, with the page as it
    was. *)
Lemma csv2aba_Ok (today : Date) (csvText : string) (p p' : page) (doc : string) :
  csv2aba today csvText p = (Ok (Some doc), p') ->
  p' = p
  /\ processCsvToAba today (map row_of (parseCsv csvText)) = Ok doc
  /\ exists o rest,
       parseCsv csvText = o :: rest
       /\ forall col, In col CSV_COLUMNS -> includes (Object_keys o) col = true.
Proof.
  unfold csv2aba. intros H.
  set (header := match parseCsv csvText with o :: _ => Object_keys o | [] => [] end) in H.
  destruct (filter (fun col => negb (includes header col)) CSV_COLUMNS) as [|c l] eqn:Ef;
    [|cbn in H; destruct (statusMessage p); discriminate].
  cbn [List.length Nat.ltb Nat.leb] in H.
  destruct (processCsvToAba today (map row_of (parseCsv csvText))) as [d|m] eqn:Ep;
    [|discriminate].
  injection H as <- <-.
  pose proof (filter_nil_all _ _ Ef) as Hall.
  split; [reflexivity |]. split; [reflexivity |].
  destruct (parseCsv csvText) as [|o rest] eqn:E.
  - subst header. specialize (Hall "BSB" ltac:(left; reflexivity)). discriminate.
  - exists o, rest. split; [reflexivity |].
    intros col Hc. specialize (Hall col Hc). now apply negb_false_iff in Hall.
Qed.

(** A column that the first row has is a clean string in every row. *)
Lemma parseCsv_column (csvText : string) (o0 o : rowObject) (rest : list rowObject)
    (col : string) :
  parseCsv csvText = o0 :: rest ->
  includes (Object_keys o0) col = true ->
  In o (parseCsv csvText) ->
  exists v, row_of o col = Str v
            /\ trim v = v /\ without "," v /\ without "010" v.
Proof.
  intros E Hi Ho.
  assert (In o0 (parseCsv csvText)) as Ho0 by (rewrite E; left; reflexivity).
  rewrite <- (parseCsv_same_keys csvText o0 o col Ho0 Ho) in Hi.
  destruct (own_key_string o col Hi) as (v & Ev & Hin).
  exists v. split; [exact Ev |].
  destruct (parseCsv_values_clean csvText o Ho) as (_ & Hv).
  rewrite Forall_forall in Hv. exact (Hv _ Hin).
Qed.

End EntryPoint.

(** X11. When [csv2aba] returns a document, the CSV had a data row, the
    page is untouched, and the document is what [processCsvToAba] makes of
    the parsed rows; in every one of these rows each of the five required
    columns is a string, trimmed and without comma or line feed, so that no
    row is read with a column [undefined]. *)
Theorem csv2aba_returns_document (today : Date) (csvText : string) (p p' : page)
    (doc : string) :
  csv2aba today csvText p = (Ok (Some doc), p') ->
  p' = p
  /\ parseCsv csvText <> []
  /\ processCsvToAba today (map row_of (parseCsv csvText)) = Ok doc
  /\ forall o col,
       In o (parseCsv csvText) -> In col CSV_COLUMNS ->
       exists v, row_of o col = Str v
                 /\ trim v = v /\ without "," v /\ without "010" v.
Proof.
  intros H.
  destruct (csv2aba_Ok _ _ _ _ _ H) as (Hp' & Hp & o0 & rest & E & Hcols).
  split; [exact Hp' |]. split; [rewrite E; discriminate |]. split; [exact Hp |].
  intros o col Ho Hc.
  exact (parseCsv_column csvText o0 o rest col E (Hcols col Hc) Ho).
Qed.

Lemma csv2aba_returns_document_witness :
  exists doc,
    csv2aba the_3rd_of_November_2026
      ("BSB,Reference,Name,Account,Amount" ++ LF
       ++ "000-000,TEST,R SMITH,157108231,$12.00" ++ LF ++ ",,,,")
      {| console := []; statusMessage := Some "" |}
    = (Ok (Some doc), {| console := []; statusMessage := Some "" |})
    /\ processCsvToAba the_3rd_of_November_2026
         (map row_of
            (parseCsv ("BSB,Reference,Name,Account,Amount" ++ LF
                       ++ "000-000,TEST,R SMITH,157108231,$12.00" ++ LF ++ ",,,,")))
       = Ok doc
    /\ length doc = 363.
Proof.
  destruct (csv2aba the_3rd_of_November_2026
              ("BSB,Reference,Name,Account,Amount" ++ LF
               ++ "000-000,TEST,R SMITH,157108231,$12.00" ++ LF ++ ",,,,")
              {| console := []; statusMessage := Some "" |})
    as [[[doc|]|m] p'] eqn:E; try (vm_compute in E; discriminate).
  destruct (csv2aba_returns_document _ _ _ _ _ E) as (-> & _ & Hp & _).
  exists doc. split; [reflexivity |]. split; [exact Hp |].
  vm_compute in E. injection E as <-. reflexivity.
Defined.

(** ** Line feeds in records *)

Section LineFeeds.

Lemma without_repeat (c : ascii) (s : string) (n : nat) :
  without c s -> without c (repeat s n).
Proof.
  intros H. induction n as [|n IH]; [exact I |].
  cbn [repeat]. apply without_append. split; assumption.
Qed.

Lemma without_substring (c : ascii) (s : string) : forall n m,
  without c s -> without c (substring n m s).
Proof.
  induction s as [|x s IH]; intros n m H.
  - destruct n, m; exact I.
  - destruct H as (Hx & Hs). destruct n as [|n], m as [|m]; cbn [substring].
    + exact I.
    + split; [exact Hx | now apply IH].
    + now apply IH.
    + now apply IH.
Qed.

Lemma without_padStart (c : ascii) (s p : string) (n : nat) :
  without c s -> without c p -> without c (padStart s n p).
Proof.
  intros Hs Hp. unfold padStart.
  destruct (n <=? length s)%nat; [exact Hs |].
  destruct (length p =? 0)%nat; [exact Hs |].
  apply without_append. split; [|exact Hs].
  now apply without_substring, without_repeat.
Qed.

Lemma without_padEnd (c : ascii) (s p : string) (n : nat) :
  without c s -> without c p -> without c (padEnd s n p).
Proof.
  intros Hs Hp. unfold padEnd.
  destruct (n <=? length s)%nat; [exact Hs |].
  destruct (length p =? 0)%nat; [exact Hs |].
  apply without_append. split; [exact Hs |].
  now apply without_substring, without_repeat.
Qed.

Lemma without_slice (c : ascii) (s : string) (start : Z) :
  without c s -> without c (slice s start).
Proof. intros H. unfold slice. now apply without_substring. Qed.

Lemma without_join (c : ascii) (separator : string) (parts : list string) :
  without c separator -> Forall (without c) parts -> without c (join separator parts).
Proof.
  intros Hs H. induction H as [|x l Hx Hl IH]; [exact I |].
  destruct l as [|y l]; [exact Hx |].
  change (join separator (x :: y :: l)) with (x ++ separator ++ join separator (y :: l)).
  apply without_append. split; [exact Hx |].
  apply without_append. split; assumption.
Qed.

(** [String] of a Number holds no line feed. *)
Lemma without_toString (x : number) : without "010" (toString x).
Proof.
  assert (forall n, without "010" (decimal n)) as Hd
    by (intros n; apply without_decimal; reflexivity).
  assert (forall m, without "010" (toStringPos m)) as Hp.
  { intros m. unfold toStringPos. destruct (m <? 2 ^ prec)%Z; [apply Hd |].
    destruct (shortest (length (decimal m)) m 1) as [[s n] k].
    destruct (n <=? 21)%Z.
    - apply without_append. split; [apply Hd |].
      apply without_repeat. split; [discriminate | exact I].
    - specialize (Hd s) as Hs. destruct (decimal s) as [|d [|d' ds]]; [exact I | |].
      + destruct Hs as (H1 & _). split; [exact H1 |].
        change (without "010" ("e+" ++ decimal (n - 1))).
        apply without_append. split; [|apply Hd].
        repeat split; discriminate.
      + destruct Hs as (H1 & H2). split; [exact H1 |].
        change (without "010" ("." ++ String d' ds ++ "e+" ++ decimal (n - 1))).
        apply without_append. split; [repeat split; discriminate |].
        apply without_append. split; [exact H2 |].
        apply without_append. split; [repeat split; discriminate | apply Hd]. }
  destruct x as [|[|]|z]; cbn [toString]; try (repeat split; discriminate).
  destruct (z <? 0)%Z; [|apply Hp].
  change (without "010" ("-" ++ toStringPos (- z))).
  apply without_append. split; [repeat split; discriminate | apply Hp].
Qed.

Lemma without_header (today : Date) (header : string) :
  generate_descriptive_record today = Ok header -> without "010" header.
Proof.
  unfold generate_descriptive_record. set (t := join "" _).
  assert (without "010" t) as Ht.
  { subst t. apply without_join; [exact I |].
    assert (without "010" " ") as Hsp by (split; [discriminate | exact I]).
    assert (without "010" "0") as Hz by (split; [discriminate | exact I]).
    repeat constructor; try discriminate;
      try (apply without_repeat; exact Hsp);
      try (apply without_padEnd; [repeat split; discriminate | exact Hsp]);
      try (apply without_padStart; [repeat split; discriminate | exact Hz]).
    repeat (apply without_append; split).
    - apply without_padStart; [apply without_toString | exact Hz].
    - apply without_padStart; [apply without_toString | exact Hz].
    - apply without_slice, without_toString. }
  clearbody t. destruct (length t =? LINE_LENGTH)%nat; [|discriminate].
  intros [= <-]. exact Ht.
Qed.

Lemma without_trailer (aba_content : list string) (total_amount : number) (trailer : string) :
  generate_file_total_record aba_content total_amount = Ok trailer ->
  without "010" trailer.
Proof.
  intros H. destruct (trailer_inv _ _ _ H) as (_ & _ & _ & ->).
  assert (without "010" "0") as Hz by (split; [discriminate | exact I]).
  repeat (apply without_append; split);
    try (apply without_padStart; [apply without_toString | exact Hz]);
    repeat split; discriminate.
Qed.

Lemma without_detail_record_of (bsb account name reference : string) (amt : number) :
  without "010" bsb -> without "010" account -> without "010" name ->
  without "010" reference ->
  without "010" (detail_record_of bsb account name reference amt).
Proof.
  intros Hb Ha Hn Hr. unfold detail_record_of.
  assert (without "010" " ") as Hsp by (split; [discriminate | exact I]).
  assert (without "010" "0") as Hz by (split; [discriminate | exact I]).
  apply without_join; [exact I |].
  repeat constructor; try discriminate; try assumption;
    try (apply without_padStart; assumption);
    try (apply without_padEnd; assumption).
  apply without_padStart; [apply without_toString | exact Hz].
Qed.

End LineFeeds.

Section Lines.

Lemma accepted_details_In (csvData : list Row) (record : string) (amt : number) :
  In (record, amt) (accepted_details csvData) ->
  exists row, In row csvData
              /\ generate_detail_record row = Ok (Some record, Some amt).
Proof.
  intros H. apply in_flat_map in H as (row & Hr & Ha).
  exists row. split; [exact Hr |]. unfold accepted in Ha.
  destruct (generate_detail_record row) as [[[r|] [a|]]|m]; try destruct Ha.
  - now injection H as -> ->.
  - destruct H.
Qed.

End Lines.

(** X12. Every line of a document that [csv2aba] returns has exactly 120
    characters: the document is the header, the accepted records and the
    trailer, each of 120 characters without a line feed inside, each followed
    by one line feed. *)
Theorem csv2aba_lines (today : Date) (csvText : string) (p p' : page) (doc : string) :
  csv2aba today csvText p = (Ok (Some doc), p') ->
  exists lines,
    doc = join LF lines ++ LF
    /\ List.length lines
       = 2 + List.length (accepted_details (map row_of (parseCsv csvText)))
    /\ Forall (fun line => length line = 120 /\ without "010" line) lines.
Proof.
  intros H.
  destruct (csv2aba_Ok _ _ _ _ _ H) as (_ & Hp & o0 & rest & E & Hcols).
  assert (forall o col, In o (parseCsv csvText) -> In col CSV_COLUMNS ->
          exists v, row_of o col = Str v
                    /\ trim v = v /\ without "," v /\ without "010" v) as Hrows
    by (intros o col Ho Hc;
        exact (parseCsv_column csvText o0 o rest col E (Hcols col Hc) Ho)).
  destruct (document_trailer _ _ _ Hp) as (header & trailer & (Hh & Hd) & Ht & Lt & _).
  exists (header :: map fst (accepted_details (map row_of (parseCsv csvText)))
            ++ [trailer])%list.
  split; [exact Hd |]. split.
  - cbn [List.length]. rewrite length_app, length_map. cbn [List.length]. lia.
  - constructor.
    { split; [now apply generate_descriptive_record_length with today
             | now apply without_header with today]. }
    apply Forall_app. split.
    + apply Forall_forall. intros r Hr.
      apply in_map_iff in Hr as ([r' a] & <- & Hin). cbn [fst].
      apply accepted_details_In in Hin as (row & Hrow & Hg).
      apply in_map_iff in Hrow as (o & <- & Ho).
      apply generate_detail_record_Ok in Hg
        as [(_ & [=] & _)|(_ & amount & _ & _ & [= ->] & El)].
      split; [exact El |].
      assert (forall col, In col CSV_COLUMNS -> without "010" (column (row_of o) col)) as Hc.
      { intros col Hcol. destruct (Hrows o col Ho Hcol) as (v & Ev & _ & _ & Hv).
        unfold column. rewrite Ev. now apply without_trim. }
      apply without_detail_record_of; apply Hc; simpl; auto 6.
    + constructor; [|constructor].
      split; [exact Lt | now apply without_trailer with (1 := Ht)].
Qed.

Lemma csv2aba_lines_witness :
  exists doc lines,
    csv2aba the_3rd_of_November_2026
      ("BSB,Reference,Name,Account,Amount" ++ LF
       ++ "000-000,TEST,R SMITH,157108231,$12.00" ++ LF ++ ",,,,")
      {| console := []; statusMessage := Some "" |}
    = (Ok (Some doc), {| console := []; statusMessage := Some "" |})
    /\ doc = join LF lines ++ LF
    /\ List.length lines = 3
    /\ Forall (fun line => length line = 120 /\ without "010" line) lines.
Proof.
  destruct (csv2aba the_3rd_of_November_2026
              ("BSB,Reference,Name,Account,Amount" ++ LF
               ++ "000-000,TEST,R SMITH,157108231,$12.00" ++ LF ++ ",,,,")
              {| console := []; statusMessage := Some "" |})
    as [[[doc|]|m] p'] eqn:E; try (vm_compute in E; discriminate).
  destruct (csv2aba_lines _ _ _ _ _ E) as (lines & Hd & Hl & Hf).
  assert (p' = {| console := []; statusMessage := Some "" |}) as ->
    by (vm_compute in E; congruence).
  exists doc, lines. split; [reflexivity |]. split; [exact Hd |]. split; [|exact Hf].
  rewrite Hl. reflexivity.
Defined.

(** ** Windows line ends *)

Section CarriageReturns.

Lemma crlf_cons (c : ascii) (s : string) :
  crlf (String c s)
  = if (c =? "010")%char then String "013" (String "010" (crlf s)) else String c (crlf s).
Proof. reflexivity. Qed.

Lemma crlf_empty (s : string) : crlf s = "" -> s = "".
Proof.
  destruct s as [|c s]; [reflexivity |]. rewrite crlf_cons.
  destruct (c =? "010")%char; discriminate.
Qed.

Lemma trimStart_crlf (s : string) : trimStart (crlf s) = crlf (trimStart s).
Proof.
  induction s as [|c s IH]; [reflexivity |]. rewrite crlf_cons.
  destruct (Ascii.eqb_spec c "010") as [->|E].
  - cbn [trimStart]. exact IH.
  - cbn [trimStart]. destruct (isWhiteSpace c); [exact IH |].
    rewrite crlf_cons. now destruct (Ascii.eqb_spec c "010").
Qed.

Lemma trimEnd_crlf (s : string) : trimEnd (crlf s) = crlf (trimEnd s).
Proof.
  induction s as [|c s IH]; [reflexivity |].
  rewrite crlf_cons, (trimEnd_cons c s).
  destruct (Ascii.eqb_spec c "010") as [->|E].
  - rewrite trimEnd_cons, trimEnd_cons, IH.
    destruct (trimEnd s) as [|d t]; [reflexivity |].
    rewrite (crlf_cons "010"). cbn [Ascii.eqb Bool.eqb].
    destruct (crlf (String d t)) as [|d' t'] eqn:Eu; [|reflexivity].
    apply crlf_empty in Eu. discriminate.
  - rewrite trimEnd_cons, IH.
    destruct (trimEnd s) as [|d t].
    + cbn [crlf]. destruct (isWhiteSpace c); [reflexivity |].
      rewrite crlf_cons. now destruct (Ascii.eqb_spec c "010").
    + rewrite (crlf_cons c). destruct (Ascii.eqb_spec c "010"); [contradiction |].
      destruct (crlf (String d t)) as [|d' t'] eqn:Eu; [|reflexivity].
      apply crlf_empty in Eu. discriminate.
Qed.

Lemma trim_crlf (s : string) : trim (crlf s) = crlf (trim s).
Proof. unfold trim. now rewrite trimStart_crlf, trimEnd_crlf. Qed.

(** A white space at the end is trimmed away. *)
Lemma trimEnd_append_ws (w : ascii) (s : string) :
  isWhiteSpace w = true -> trimEnd (s ++ String w "") = trimEnd s.
Proof.
  intros Hw. induction s as [|c s IH].
  - cbn [append]. rewrite trimEnd_cons. cbn [trimEnd]. now rewrite Hw.
  - cbn [append]. now rewrite !trimEnd_cons, IH.
Qed.

Lemma trim_append_ws (w : ascii) (s : string) :
  isWhiteSpace w = true -> trim (s ++ String w "") = trim s.
Proof.
  intros Hw. unfold trim. induction s as [|c s IH].
  - cbn [append trimStart]. now rewrite Hw.
  - cbn [append trimStart]. destruct (isWhiteSpace c); [exact IH |].
    apply (trimEnd_append_ws w (String c s) Hw).
Qed.

Lemma with_cr_trim (a b : string) : with_cr a b -> trim a = trim b.
Proof. intros [->| ->]; [reflexivity | now apply trim_append_ws]. Qed.

Lemma with_cr_refl (l : list string) : Forall2 with_cr l l.
Proof. induction l; constructor; [left; reflexivity | assumption]. Qed.

(** The lines of a text with Windows line ends are the lines of the text,
    with a carriage return at the end of all but the last. *)
Lemma split_from_crlf (s : string) : forall cur,
  Forall2 with_cr (split_from LF (crlf s) 0 cur) (split_from LF s 0 cur).
Proof.
  unfold LF. induction s as [|c s IH]; intros cur.
  - constructor; [left; reflexivity | constructor].
  - rewrite crlf_cons. destruct (Ascii.eqb_spec c "010") as [->|E].
    + rewrite !split_from_char.
      destruct (ascii_dec "010" "013") as [E'|_]; [discriminate |].
      destruct (ascii_dec "010" "010") as [_|N]; [|contradiction].
      constructor; [right; reflexivity | apply IH].
    + rewrite !split_from_char.
      destruct (ascii_dec "010" c) as [E'|_]; [congruence | apply IH].
Qed.

(** A carriage return at the end of a line stays at the end of its last
    value. *)
Lemma split_from_comma_cr (s : string) : forall cur,
  Forall2 with_cr (split_from "," (s ++ CR) 0 cur) (split_from "," s 0 cur).
Proof.
  induction s as [|c s IH]; intros cur.
  - cbn [append]. unfold CR. rewrite split_from_char.
    destruct (ascii_dec "," "013") as [E|_]; [discriminate |].
    constructor; [right; reflexivity | constructor].
  - cbn [append]. rewrite !split_from_char.
    destruct (ascii_dec "," c); [constructor; [left; reflexivity | apply IH] | apply IH].
Qed.

Lemma split_comma_with_cr (a b : string) :
  with_cr a b -> Forall2 with_cr (split a ",") (split b ",").
Proof.
  intros [->| ->]; [apply with_cr_refl |].
  unfold split. apply limit_Forall2, split_from_comma_cr.
Qed.

Lemma with_cr_map_trim (va vb : list string) :
  Forall2 with_cr va vb -> map trim va = map trim vb.
Proof.
  induction 1 as [|a b va vb Hab _ IH]; [reflexivity |].
  cbn [map]. now rewrite IH, (with_cr_trim a b Hab).
Qed.

Lemma with_cr_nth (va vb : list string) :
  Forall2 with_cr va vb -> forall j, trim (nth j va "") = trim (nth j vb "").
Proof.
  induction 1 as [|a b va vb Hab _ IH]; intros [|j]; cbn [nth]; auto.
  now apply with_cr_trim.
Qed.

Lemma parse_values_with_cr (header va vb : list string) :
  Forall2 with_cr va vb -> parse_values header va = parse_values header vb.
Proof.
  intros H. unfold parse_values.
  assert (forall o j, assign_column header va o j = assign_column header vb o j) as He.
  { intros o j. unfold assign_column. now rewrite !cell_trim, (with_cr_nth va vb H). }
  generalize (@nil (string * string)).
  induction (seq 0 (List.length header)) as [|j l IH]; intros o; [reflexivity |].
  cbn [fold_left]. now rewrite He, IH.
Qed.

Lemma parse_line_with_cr (header : list string) (a b : string) :
  with_cr a b -> parse_line header a = parse_line header b.
Proof.
  intros H. apply split_comma_with_cr in H. unfold parse_line.
  rewrite (parse_values_with_cr header _ _ H).
  rewrite (Forall2_length H), (with_cr_nth _ _ H 0). reflexivity.
Qed.

End CarriageReturns.

(** X13. Windows line ends change nothing: [parseCsv] builds the same rows
    from a text and from the same text with a carriage return before each
    line feed. *)
Theorem parseCsv_crlf (csvText : string) : parseCsv (crlf csvText) = parseCsv csvText.
Proof.
  unfold parseCsv. rewrite trim_crlf.
  assert (Forall2 with_cr (split (crlf (trim csvText)) LF) (split (trim csvText) LF)) as H
    by (unfold split, LF; apply limit_Forall2, (split_from_crlf (trim csvText) "")).
  destruct H as [|a b la lb Hab Hl]; [reflexivity |].
  rewrite (with_cr_map_trim _ _ (split_comma_with_cr a b Hab)).
  induction Hl as [|x y la lb Hxy _ IH]; [reflexivity |].
  cbn [flat_map]. now rewrite IH, (parse_line_with_cr _ x y Hxy).
Qed.

(** ** The name of the download *)

Section DownloadName.

Lemma substring_parts (s : string) : forall n,
  n <= length s -> s = substring 0 n s ++ substring n (length s - n) s.
Proof.
  induction s as [|c s IH]; intros [|n] H; cbn [length] in *.
  - reflexivity.
  - lia.
  - cbn [substring append Nat.sub]. now rewrite substring_0_length.
  - cbn [substring append Nat.sub]. f_equal. apply IH. lia.
Qed.

Lemma substring_suffix (stem ext : string) :
  substring (length stem) (length ext) (stem ++ ext) = ext.
Proof.
  rewrite <- (append_empty_r ext) at 2. rewrite substring_field. reflexivity.
Qed.

Lemma matches_csv_length (ext : string) : matches_csv ext = true -> length ext = 4.
Proof.
  destruct ext as [|d [|c [|s [|v [|x t]]]]]; try discriminate. reflexivity.
Qed.

Lemma replace_csv_suffix_append (stem ext : string) :
  length ext = 4 ->
  replace_csv_suffix (stem ++ ext)
  = if matches_csv ext then stem ++ ".aba" else stem ++ ext.
Proof.
  intros H. unfold replace_csv_suffix.
  rewrite length_append, H.
  replace (length stem + 4 - 4) with (length stem) by lia.
  replace (substring (length stem) 4 (stem ++ ext)) with ext
    by (rewrite <- H; symmetry; apply substring_suffix).
  rewrite substring_0_append.
  destruct (Nat.leb_spec 4 (length stem + 4)); [reflexivity | lia].
Qed.

End DownloadName.

(** X14. The name [generateDownload] gives the download when a file was
    chosen is as long as the name of that file, and giving it a second time
    changes nothing; the last four characters of the file's name are replaced
    by [.aba] when they are [.csv] in any letter case, and the name is kept
    otherwise (so such a file keeps an extension that is not [.aba]); a
    shorter name is kept. When no file was chosen the name is the time in
    milliseconds, in decimal, followed by [.aba]. *)
Theorem download_name (name : string) (others : list string) (now : Z) :
  length (abaFilename (name :: others) now) = length name
  /\ abaFilename (abaFilename (name :: others) now :: others) now
     = abaFilename (name :: others) now
  /\ (forall stem ext, name = stem ++ ext -> length ext = 4 ->
      abaFilename (name :: others) now
      = if matches_csv ext then stem ++ ".aba" else name)
  /\ (length name < 4 -> abaFilename (name :: others) now = name)
  /\ ((0 <= now < 2 ^ 53)%Z -> abaFilename [] now = decimal now ++ ".aba").
Proof.
  cbn [abaFilename].
  assert (forall stem ext, name = stem ++ ext -> length ext = 4 ->
          replace_csv_suffix name = if matches_csv ext then stem ++ ".aba" else name) as Hs
    by (intros stem ext -> H; now apply replace_csv_suffix_append).
  assert (length name < 4 -> replace_csv_suffix name = name) as Hn.
  { intros H. unfold replace_csv_suffix.
    destruct (Nat.leb_spec 4 (length name)); [lia | reflexivity]. }
  assert (length name < 4
          \/ exists stem ext, name = stem ++ ext /\ length ext = 4) as [H | (stem & ext & E & H)].
  { destruct (Nat.lt_ge_cases (length name) 4) as [H|H]; [now left | right].
    exists (substring 0 (length name - 4) name), (substring (length name - 4) 4 name).
    split; [|rewrite length_substring; lia].
    rewrite (substring_parts name (length name - 4)) at 1 by lia.
    do 2 f_equal. lia. }
  - split; [now rewrite (Hn H) |]. split; [now rewrite !(Hn H) |].
    repeat split; auto. intros Hz. now rewrite toString_Int.
  - split; [|split; [|repeat split; auto]].
    + rewrite (Hs stem ext E H). destruct (matches_csv ext); [|reflexivity].
      rewrite E, !length_append, H. reflexivity.
    + rewrite (Hs stem ext E H). destruct (matches_csv ext) eqn:M.
      * now rewrite (replace_csv_suffix_append stem ".aba").
      * rewrite (Hs stem ext E H), M. reflexivity.
    + intros Hz. now rewrite toString_Int.
Qed.

(** X4. No cent is lost on the amounts from 0.00 to 999.99: for every number
    of cents below 100000, written in dollars with two decimals, with or
    without a leading dollar sign, [amount_in_cents] is exactly that
    number. *)
Theorem two_decimals_exact (c : Z) :
  (0 <= c < 100000)%Z ->
  amount_in_cents (two_decimals c) = Int c
  /\ amount_in_cents ("$" ++ two_decimals c) = Int c.
Proof.
  intros Hc.
  assert (amount_in_cents (two_decimals c) = Int c) as E.
  { apply number_eqb_eq.
    apply (all_from_spec
             (fun c => number_eqb (amount_in_cents (two_decimals c)) (Int c))
             (Z.to_nat 100000) 0%Z); [vm_compute; reflexivity | lia]. }
  split; [exact E |].
  rewrite <- E. unfold amount_in_cents, amountStr.
  change ("$" ++ two_decimals c) with (String "$" (two_decimals c)).
  rewrite replace_head.
  now rewrite (replace_without "$"%char (two_decimals c))
    by (apply without_two_decimals; [reflexivity | discriminate]).
Qed.

Lemma two_decimals_exact_witness :
  two_decimals 99999 = "999.99"
  /\ amount_in_cents "999.99" = Int 99999
  /\ amount_in_cents "$999.99" = Int 99999.
Proof.
  split; [reflexivity |].
  apply (two_decimals_exact 99999). lia.
Defined.
